(** * HD44780 character-LCD driver (package [hd44780]) and the character
      display layer (package [characterdisplay])

    A shallow embedding of [controller/hd44780/hd44780.go],
    [controller/hd44780/character_display.go],
    [interface/display/characterdisplay/character_display.go] and of the bus
    emulator of [hd44780_test.go], followed by the properties proved about
    them.

    Conventions.
    - A Go [byte] is a [Z] in [0, 256); every byte operation that can leave
      that range is wrapped with [byte_wrap].  A Go [int] is a [Z] in
      [-2^63, 2^63) (the 64-bit targets); [int_wrap] is its wrap-around.
    - A Go method with an [error] result that mutates its receiver or the
      hardware is a function [S -> outcome * S]: the state is returned in
      every case, because a failing call keeps the mutations made before the
      failure.  A run-time panic (nil interface call, index out of range) is
      the third outcome.
    - [time.Sleep] and [glog] calls have no effect on the values modelled
      here and are left out. *)

From Stdlib Require Import ZArith List Bool String Lia.
Import ListNotations.
Local Open Scope Z_scope.

(* ================================================================== *)
(** ** Go values, errors and loops over closures *)

Definition byte_wrap (z : Z) : Z := z mod 256.

Definition is_byte (z : Z) : Prop := 0 <= z < 256.

(** [x << n] on bytes *)
Definition byte_shl (x n : Z) : Z := byte_wrap (Z.shiftl x n).

(** [^x] on bytes *)
Definition byte_not (x : Z) : Z := Z.lxor x 255.

(** [byte(x)] for an [int] x *)
Definition byte_of_int (x : Z) : Z := x mod 256.

Definition int_min : Z := - 2 ^ 63.
Definition int_max : Z := 2 ^ 63 - 1.

Definition is_int (z : Z) : Prop := int_min <= z <= int_max.

Definition int_wrap (z : Z) : Z := (z + 2 ^ 63) mod 2 ^ 64 - 2 ^ 63.

Definition error : Type := string.

Inductive outcome : Type :=
| Nil                 (* the call returned a nil error *)
| Fail (e : error)    (* the call returned a non-nil error *)
| Panic.              (* the call panicked *)

Definition action (S : Type) : Type := S -> outcome * S.

(** [for _, f := range functions { err := f(); if err != nil { return err } };
    return nil] *)
Fixpoint run_all {S : Type} (fs : list (action S)) (s : S) : outcome * S :=
  match fs with
  | [] => (Nil, s)
  | f :: fs' =>
      match f s with
      | (Nil, s') => run_all fs' s'
      | (r, s') => (r, s')
      end
  end.

(** [err := f(); if err != nil { return err }; g()] *)
Definition and_then {S : Type} (f g : action S) : action S :=
  fun s =>
    match f s with
    | (Nil, s') => g s'
    | (r, s') => (r, s')
    end.

Notation "f ;; g" := (and_then f g) (at level 61, right associativity).

(* ================================================================== *)
(** ** Package [embd]: digital pins and the I2C bus *)

Module embd.

(** Modelled from the spec: the constants [embd.Low] and [embd.High] of the
    root package, which is not among the sources.  The spec reads a
    register select line driven low as 0 and driven high as 1. *)
Definition Low : Z := 0.
Definition High : Z := 1.

(** Modelled from the spec: the line direction handed to [SetDirection]. *)
Inductive Direction : Type := In | Out.

(** A [DigitalPin] interface value that is not nil is a handle; nil is
    [None] at the places that hold an [option DigitalPin]. *)
Definition DigitalPin : Type := nat.

Inductive pin_op : Type :=
| SetDirection (d : Direction)
| PinWrite (v : Z)
| PinClose.

(** The pins of the host.  [pin_log] is the history of the calls made on
    the pins, oldest first; [pin_fault] is the behaviour of the hardware:
    from the history up to and including a call, whether that call returns
    a transport error. *)
Record GPIO : Type := {
  pin_log : list (DigitalPin * pin_op);
  pin_fault : list (DigitalPin * pin_op) -> option error
}.

(** A method call on a pin; on a nil interface value it panics. *)
Definition pin_call (p : option DigitalPin) (op : pin_op) : action GPIO :=
  fun w =>
    match p with
    | None => (Panic, w)
    | Some n =>
        let log' := pin_log w ++ [(n, op)] in
        let w' := {| pin_log := log'; pin_fault := pin_fault w |} in
        match pin_fault w log' with
        | Some e => (Fail e, w')
        | None => (Nil, w')
        end
    end.

(** The I2C bus of the host: the history of [WriteByte(addr, value)] calls
    and [Close] calls, and the faults of the transport. *)
Inductive i2c_op : Type :=
| WriteByte (addr value : Z)
| I2CClose.

Record I2C : Type := {
  i2c_log : list i2c_op;
  i2c_fault : list i2c_op -> option error
}.

Definition i2c_call (op : i2c_op) : action I2C :=
  fun w =>
    let log' := i2c_log w ++ [op] in
    let w' := {| i2c_log := log'; i2c_fault := i2c_fault w |} in
    match i2c_fault w log' with
    | Some e => (Fail e, w')
    | None => (Nil, w')
    end.

End embd.

(* ================================================================== *)
(** ** hd44780.go: constants *)

Definition lcdInit : Z := 0x33.
Definition lcdInit4bit : Z := 0x32.

Definition lcdClearDisplay : Z := 0x01.
Definition lcdReturnHome : Z := 0x02.
Definition lcdCursorShift : Z := 0x10.
Definition lcdSetCGRamAddr : Z := 0x40.
Definition lcdSetDDRamAddr : Z := 0x80.

Definition lcdCursorMove : Z := 0x00.
Definition lcdDisplayMove : Z := 0x08.
Definition lcdMoveLeft : Z := 0x00.
Definition lcdMoveRight : Z := 0x04.

Definition lcdSetEntryMode : Z := 0x04.
Definition lcdEntryDecrement : Z := 0x00.
Definition lcdEntryIncrement : Z := 0x02.
Definition lcdEntryShiftOff : Z := 0x00.
Definition lcdEntryShiftOn : Z := 0x01.

Definition lcdSetDisplayMode : Z := 0x08.
Definition lcdDisplayOff : Z := 0x00.
Definition lcdDisplayOn : Z := 0x04.
Definition lcdCursorOff : Z := 0x00.
Definition lcdCursorOn : Z := 0x02.
Definition lcdBlinkOff : Z := 0x00.
Definition lcdBlinkOn : Z := 0x01.

Definition lcdSetFunctionMode : Z := 0x20.
Definition lcd4BitMode : Z := 0x00.
Definition lcd8BitMode : Z := 0x10.
Definition lcd1Line : Z := 0x00.
Definition lcd2Line : Z := 0x08.
Definition lcd5x8Dots : Z := 0x00.
Definition lcd5x10Dots : Z := 0x04.

Definition i2cAddr : Z := 0x00.

(* ================================================================== *)
(** ** hd44780.go: the bus interface *)

Class HD44780Bus (B : Type) : Type := {
  bus_Write : bool -> Z -> action B;
  bus_BacklightOff : action B;
  bus_BacklightOn : action B;
  bus_Close : action B
}.

(* ================================================================== *)
(** ** hd44780.go: GPIO4BitBus *)

Module GPIO4BitBus.
Import embd.

Record t : Type := {
  RS : option DigitalPin;
  EN : option DigitalPin;
  D4 : option DigitalPin;
  D5 : option DigitalPin;
  D6 : option DigitalPin;
  D7 : option DigitalPin;
  Backlight : option DigitalPin
}.

Definition BacklightOff (bus : t) : action GPIO :=
  match Backlight bus with
  | Some p => pin_call (Some p) (PinWrite High)
  | None => fun w => (Nil, w)
  end.

Definition BacklightOn (bus : t) : action GPIO :=
  match Backlight bus with
  | Some p => pin_call (Some p) (PinWrite Low)
  | None => fun w => (Nil, w)
  end.

Definition pulseEnable (bus : t) : action GPIO :=
  run_all (map (fun v => pin_call (EN bus) (PinWrite v)) [Low; High; Low]).

Definition Write (rs : bool) (data : Z) (bus : t) : action GPIO :=
  let rsInt := if rs then High else Low in
  run_all
    [ pin_call (RS bus) (PinWrite rsInt);
      pin_call (D4 bus) (PinWrite (Z.land (Z.shiftr data 4) 0x01));
      pin_call (D5 bus) (PinWrite (Z.land (Z.shiftr data 5) 0x01));
      pin_call (D6 bus) (PinWrite (Z.land (Z.shiftr data 6) 0x01));
      pin_call (D7 bus) (PinWrite (Z.land (Z.shiftr data 7) 0x01));
      pulseEnable bus;
      pin_call (D4 bus) (PinWrite (Z.land data 0x01));
      pin_call (D5 bus) (PinWrite (Z.land (Z.shiftr data 1) 0x01));
      pin_call (D6 bus) (PinWrite (Z.land (Z.shiftr data 2) 0x01));
      pin_call (D7 bus) (PinWrite (Z.land (Z.shiftr data 3) 0x01));
      pulseEnable bus ].

Definition Close (bus : t) : action GPIO :=
  run_all
    (map (fun pin => pin_call pin PinClose)
         [RS bus; EN bus; D4 bus; D5 bus; D6 bus; D7 bus; Backlight bus]).

(** A bus value together with the pins it drives. *)
#[global] Instance bus : HD44780Bus (t * GPIO) := {
  bus_Write rs data := fun '(b, w) => let (r, w') := Write rs data b w in (r, (b, w'));
  bus_BacklightOff := fun '(b, w) => let (r, w') := BacklightOff b w in (r, (b, w'));
  bus_BacklightOn := fun '(b, w) => let (r, w') := BacklightOn b w in (r, (b, w'));
  bus_Close := fun '(b, w) => let (r, w') := Close b w in (r, (b, w'))
}.

End GPIO4BitBus.

(* ================================================================== *)
(** ** hd44780.go: I2CBus *)

Module I2CPinMap.

Record t : Type := {
  RS : Z; RW : Z; EN : Z;
  D4 : Z; D5 : Z; D6 : Z; D7 : Z;
  Backlight : Z
}.

End I2CPinMap.

Definition MJKDZPinMap : I2CPinMap.t :=
  {| I2CPinMap.RS := 6; I2CPinMap.RW := 5; I2CPinMap.EN := 4;
     I2CPinMap.D4 := 0; I2CPinMap.D5 := 1; I2CPinMap.D6 := 2; I2CPinMap.D7 := 3;
     I2CPinMap.Backlight := 7 |}.

Definition PCF8574PinMap : I2CPinMap.t :=
  {| I2CPinMap.RS := 0; I2CPinMap.RW := 1; I2CPinMap.EN := 2;
     I2CPinMap.D4 := 4; I2CPinMap.D5 := 5; I2CPinMap.D6 := 6; I2CPinMap.D7 := 7;
     I2CPinMap.Backlight := 3 |}.

Module I2CBus.
Import embd.

(** The [I2C] field is the handle of the host's bus; the bus itself is the
    [embd.I2C] value the methods act on (a nil handle is not modelled). *)
Record t : Type := {
  PinMap : I2CPinMap.t;
  Backlight : bool
}.

Definition pulseEnable (bus : t) (data : Z) : action I2C :=
  run_all
    (map (fun b => i2c_call (WriteByte i2cAddr b))
         [data; Z.lor data (byte_shl 0x01 (I2CPinMap.EN (PinMap bus))); data]).

Definition Write (rs : bool) (data : Z) (bus : t) : action I2C :=
  let pm := PinMap bus in
  let instructionHigh := 0x00 in
  let instructionHigh :=
    Z.lor instructionHigh (byte_shl (Z.land (Z.shiftr data 4) 0x01) (I2CPinMap.D4 pm)) in
  let instructionHigh :=
    Z.lor instructionHigh (byte_shl (Z.land (Z.shiftr data 5) 0x01) (I2CPinMap.D5 pm)) in
  let instructionHigh :=
    Z.lor instructionHigh (byte_shl (Z.land (Z.shiftr data 6) 0x01) (I2CPinMap.D6 pm)) in
  let instructionHigh :=
    Z.lor instructionHigh (byte_shl (Z.land (Z.shiftr data 7) 0x01) (I2CPinMap.D7 pm)) in
  let instructionLow := 0x00 in
  let instructionLow :=
    Z.lor instructionLow (byte_shl (Z.land data 0x01) (I2CPinMap.D4 pm)) in
  let instructionLow :=
    Z.lor instructionLow (byte_shl (Z.land (Z.shiftr data 1) 0x01) (I2CPinMap.D5 pm)) in
  let instructionLow :=
    Z.lor instructionLow (byte_shl (Z.land (Z.shiftr data 2) 0x01) (I2CPinMap.D6 pm)) in
  let instructionLow :=
    Z.lor instructionLow (byte_shl (Z.land (Z.shiftr data 3) 0x01) (I2CPinMap.D7 pm)) in
  run_all
    (map (fun ins =>
            let ins := if rs then Z.lor ins (byte_shl 0x01 (I2CPinMap.RS pm)) else ins in
            let ins :=
              if Backlight bus
              then Z.lor ins (byte_shl 0x01 (I2CPinMap.Backlight pm))
              else ins in
            pulseEnable bus ins)
         [instructionHigh; instructionLow]).

Definition set_Backlight (on : bool) (bus : t) : t :=
  {| PinMap := PinMap bus; Backlight := on |}.

Definition BacklightOff : action (t * I2C) :=
  fun '(bus, w) =>
    let bus := set_Backlight false bus in
    let (r, w') := Write false 0x00 bus w in (r, (bus, w')).

Definition BacklightOn : action (t * I2C) :=
  fun '(bus, w) =>
    let bus := set_Backlight true bus in
    let (r, w') := Write false 0x00 bus w in (r, (bus, w')).

Definition Close (bus : t) : action I2C := i2c_call I2CClose.

#[global] Instance bus : HD44780Bus (t * I2C) := {
  bus_Write rs data := fun '(b, w) => let (r, w') := Write rs data b w in (r, (b, w'));
  bus_BacklightOff := BacklightOff;
  bus_BacklightOn := BacklightOn;
  bus_Close := fun '(b, w) => let (r, w') := Close b w in (r, (b, w'))
}.

End I2CBus.

(* ================================================================== *)
(** ** A bus seen from the controller

    Any implementation of [HD44780Bus], observed through the calls it
    receives: [calls] is the history of calls, oldest first, and [fault]
    tells, from the history up to and including a call, whether that call
    returns a transport error. *)

Module TraceBus.

Inductive call : Type :=
| Write (rs : bool) (data : Z)
| BacklightOff
| BacklightOn
| Close.

Record t : Type := {
  calls : list call;
  fault : list call -> option error
}.

Definition invoke (c : call) : action t :=
  fun b =>
    let calls' := calls b ++ [c] in
    let b' := {| calls := calls'; fault := fault b |} in
    match fault b calls' with
    | Some e => (Fail e, b')
    | None => (Nil, b')
    end.

#[global] Instance bus : HD44780Bus t := {
  bus_Write rs data := invoke (Write rs data);
  bus_BacklightOff := invoke BacklightOff;
  bus_BacklightOn := invoke BacklightOn;
  bus_Close := invoke Close
}.

End TraceBus.

(* ================================================================== *)
(** ** hd44780_test.go: the 4-bit bus emulator

    The mock pins never fail: [mockDigitalPin.Write] sends the value on the
    pin's channel [values].  The emulator's goroutine receives from these
    channels; a receive on an empty channel blocks, which is [None] here. *)

Module GPIO4BitBusEmulator.
Import embd.

(** The seven mock pins. *)
Record t : Type := {
  rs : DigitalPin; en : DigitalPin;
  d4 : DigitalPin; d5 : DigitalPin; d6 : DigitalPin; d7 : DigitalPin;
  backlight : DigitalPin
}.

Record instruction : Type := { ins_rs : Z; ins_data : Z }.

(** The values pending on the channel of [pin] after the calls [log]. *)
Fixpoint values (pin : DigitalPin) (log : list (DigitalPin * pin_op)) : list Z :=
  match log with
  | [] => []
  | (n, PinWrite v) :: log' =>
      if Nat.eqb n pin then v :: values pin log' else values pin log'
  | _ :: log' => values pin log'
  end.

Record channels : Type := {
  c_rs : list Z; c_en : list Z;
  c_d4 : list Z; c_d5 : list Z; c_d6 : list Z; c_d7 : list Z
}.

Definition channels_of (be : t) (log : list (DigitalPin * pin_op)) : channels :=
  {| c_rs := values (rs be) log; c_en := values (en be) log;
     c_d4 := values (d4 be) log; c_d5 := values (d5 be) log;
     c_d6 := values (d6 be) log; c_d7 := values (d7 be) log |}.

(** [<-ch] *)
Definition recv (ch : list Z) : option (Z * list Z) :=
  match ch with
  | [] => None
  | v :: ch' => Some (v, ch')
  end.

(** [<-be.en.values == embd.Low && <-be.en.values == embd.High &&
     <-be.en.values == embd.Low], with the short circuit of [&&]. *)
Definition enable_pulse (c : channels) : option (bool * channels) :=
  let with_en c en' :=
    {| c_rs := c_rs c; c_en := en'; c_d4 := c_d4 c; c_d5 := c_d5 c;
       c_d6 := c_d6 c; c_d7 := c_d7 c |} in
  match recv (c_en c) with
  | None => None
  | Some (v1, en1) =>
      if v1 =? Low then
        match recv en1 with
        | None => None
        | Some (v2, en2) =>
            if v2 =? High then
              match recv en2 with
              | None => None
              | Some (v3, en3) => Some (v3 =? Low, with_en c en3)
              end
            else Some (false, with_en c en2)
        end
      else Some (false, with_en c en1)
  end.

(** One receive from each of the four data channels, in the order d4..d7:
    [b |= byte(<-d4) << k; b |= byte(<-d5) << (k+1); ...]. *)
Definition recv_nibble (k : Z) (b : Z) (c : channels) : option (Z * channels) :=
  match recv (c_d4 c) with
  | None => None
  | Some (v4, q4) =>
      let b := Z.lor b (byte_shl (byte_of_int v4) k) in
      match recv (c_d5 c) with
      | None => None
      | Some (v5, q5) =>
          let b := Z.lor b (byte_shl (byte_of_int v5) (k + 1)) in
          match recv (c_d6 c) with
          | None => None
          | Some (v6, q6) =>
              let b := Z.lor b (byte_shl (byte_of_int v6) (k + 2)) in
              match recv (c_d7 c) with
              | None => None
              | Some (v7, q7) =>
                  let b := Z.lor b (byte_shl (byte_of_int v7) (k + 3)) in
                  Some (b, {| c_rs := c_rs c; c_en := c_en c; c_d4 := q4;
                              c_d5 := q5; c_d6 := q6; c_d7 := q7 |})
              end
          end
      end
  end.

(** The first [if] of the loop body: after an enable pulse, latch the
    register select and the high half. *)
Definition latch_high (c : channels) : option (Z * Z * channels) :=
  match enable_pulse c with
  | None => None
  | Some (false, c1) => Some (0, 0x00, c1)
  | Some (true, c1) =>
      match recv (c_rs c1) with
      | None => None
      | Some (r, qrs) =>
          let c2 := {| c_rs := qrs; c_en := c_en c1; c_d4 := c_d4 c1;
                       c_d5 := c_d5 c1; c_d6 := c_d6 c1; c_d7 := c_d7 c1 |} in
          match recv_nibble 4 0x00 c2 with
          | None => None
          | Some (b, c3) => Some (r, b, c3)
          end
      end
  end.

(** The second [if]: after the next enable pulse, latch the low half and
    send the instruction on [be.instructions]. *)
Definition latch_low (r b : Z) (c : channels) : option (option instruction * channels) :=
  match enable_pulse c with
  | None => None
  | Some (false, c1) => Some (None, c1)
  | Some (true, c1) =>
      match recv_nibble 0 b c1 with
      | None => None
      | Some (b', c2) => Some (Some {| ins_rs := r; ins_data := b' |}, c2)
      end
  end.

(** One iteration of the goroutine's [for] loop. *)
Definition iteration (c : channels) : option (option instruction * channels) :=
  match latch_high c with
  | None => None
  | Some (r, b, c1) => latch_low r b c1
  end.

Definition drained : channels :=
  {| c_rs := []; c_en := []; c_d4 := []; c_d5 := []; c_d6 := []; c_d7 := [] |}.

End GPIO4BitBusEmulator.

(* ================================================================== *)
(** ** hd44780.go: the controller *)

Module HD44780.
Section Controller.
Context {B : Type} `{HD44780Bus B}.

Record t : Type := {
  bus : B;
  eMode : Z;
  dMode : Z;
  fMode : Z
}.

Definition set_bus (b : B) (x : t) : t :=
  {| bus := b; eMode := eMode x; dMode := dMode x; fMode := fMode x |}.
Definition set_eMode (e : Z) (x : t) : t :=
  {| bus := bus x; eMode := e; dMode := dMode x; fMode := fMode x |}.
Definition set_dMode (d : Z) (x : t) : t :=
  {| bus := bus x; eMode := eMode x; dMode := d; fMode := fMode x |}.
Definition set_fMode (f : Z) (x : t) : t :=
  {| bus := bus x; eMode := eMode x; dMode := dMode x; fMode := f |}.

(** A method promoted from the embedded [HD44780Bus]. *)
Definition on_bus (f : action B) : action t :=
  fun x => let (r, b') := f (bus x) in (r, set_bus b' x).

Definition Write (rs : bool) (data : Z) : action t := on_bus (bus_Write rs data).
Definition BacklightOff : action t := on_bus bus_BacklightOff.
Definition BacklightOn : action t := on_bus bus_BacklightOn.

Definition WriteChar (value : Z) : action t := Write true value.
Definition WriteInstruction (value : Z) : action t := Write false value.

Definition do_lcdInit : action t :=
  WriteInstruction lcdInit ;; WriteInstruction lcdInit4bit.

Definition ModeSetter : Type := t -> t.

Definition EntryDecrement : ModeSetter :=
  fun x => set_eMode (Z.land (eMode x) (byte_not lcdEntryIncrement)) x.
Definition EntryIncrement : ModeSetter :=
  fun x => set_eMode (Z.lor (eMode x) lcdEntryIncrement) x.
Definition EntryShiftOff : ModeSetter :=
  fun x => set_eMode (Z.land (eMode x) (byte_not lcdEntryShiftOn)) x.
Definition EntryShiftOn : ModeSetter :=
  fun x => set_eMode (Z.lor (eMode x) lcdEntryShiftOn) x.

Definition DisplayOff : ModeSetter :=
  fun x => set_dMode (Z.land (dMode x) (byte_not lcdDisplayOn)) x.
Definition DisplayOn : ModeSetter :=
  fun x => set_dMode (Z.lor (dMode x) lcdDisplayOn) x.
Definition CursorOff : ModeSetter :=
  fun x => set_dMode (Z.land (dMode x) (byte_not lcdCursorOn)) x.
Definition CursorOn : ModeSetter :=
  fun x => set_dMode (Z.lor (dMode x) lcdCursorOn) x.
Definition BlinkOff : ModeSetter :=
  fun x => set_dMode (Z.land (dMode x) (byte_not lcdBlinkOn)) x.
Definition BlinkOn : ModeSetter :=
  fun x => set_dMode (Z.lor (dMode x) lcdBlinkOn) x.

Definition FourBitMode : ModeSetter :=
  fun x => set_fMode (Z.land (fMode x) (byte_not lcd8BitMode)) x.
Definition EightBitMode : ModeSetter :=
  fun x => set_fMode (Z.lor (fMode x) lcd8BitMode) x.
Definition OneLine : ModeSetter :=
  fun x => set_fMode (Z.land (fMode x) (byte_not lcd2Line)) x.
Definition TwoLine : ModeSetter :=
  fun x => set_fMode (Z.lor (fMode x) lcd2Line) x.
Definition Dots5x8 : ModeSetter :=
  fun x => set_fMode (Z.land (fMode x) (byte_not lcd5x10Dots)) x.
Definition Dots5x10 : ModeSetter :=
  fun x => set_fMode (Z.lor (fMode x) lcd5x10Dots) x.

(** The sixteen mode setters of the package. *)
Definition setters : list ModeSetter :=
  [ EntryDecrement; EntryIncrement; EntryShiftOff; EntryShiftOn;
    DisplayOff; DisplayOn; CursorOff; CursorOn; BlinkOff; BlinkOn;
    FourBitMode; EightBitMode; OneLine; TwoLine; Dots5x8; Dots5x10 ].

Definition setEntryMode : action t :=
  fun x => WriteInstruction (Z.lor lcdSetEntryMode (eMode x)) x.

Definition setDisplayMode : action t :=
  fun x => WriteInstruction (Z.lor lcdSetDisplayMode (dMode x)) x.

Definition setFunctionMode : action t :=
  fun x => WriteInstruction (Z.lor lcdSetFunctionMode (fMode x)) x.

(** [for _, m := range modes { m(controller) }] *)
Definition apply_modes (modes : list ModeSetter) (x : t) : t :=
  fold_left (fun x m => m x) modes x.

Definition SetMode (modes : list ModeSetter) : action t :=
  fun x =>
    let x := apply_modes modes x in
    run_all [setEntryMode; setDisplayMode; setFunctionMode] x.

(** [New] returns [(nil, err)] when a step fails and [(controller, nil)]
    otherwise; the controller of the result is the state left behind, which
    the caller holds only when the outcome is [Nil]. *)
Definition New (b : B) (modes : list ModeSetter) : outcome * t :=
  let controller := {| bus := b; eMode := 0x00; dMode := 0x00; fMode := 0x00 |} in
  (do_lcdInit ;; SetMode modes) controller.

Definition do_DisplayOff : action t := fun x => setDisplayMode (DisplayOff x).
Definition do_DisplayOn : action t := fun x => setDisplayMode (DisplayOn x).
Definition do_CursorOff : action t := fun x => setDisplayMode (CursorOff x).
Definition do_CursorOn : action t := fun x => setDisplayMode (CursorOn x).
Definition do_BlinkOff : action t := fun x => setDisplayMode (BlinkOff x).
Definition do_BlinkOn : action t := fun x => setDisplayMode (BlinkOn x).

Definition ShiftLeft : action t :=
  WriteInstruction (Z.lor (Z.lor lcdCursorShift lcdDisplayMove) lcdMoveLeft).

Definition ShiftRight : action t :=
  WriteInstruction (Z.lor (Z.lor lcdCursorShift lcdDisplayMove) lcdMoveRight).

Definition Home : action t := WriteInstruction lcdReturnHome.

Definition Clear : action t := WriteInstruction lcdClearDisplay.

Definition SetCursor (value : Z) : action t :=
  WriteInstruction (Z.lor lcdSetDDRamAddr value).

Definition Close : action t := on_bus bus_Close.

End Controller.
Arguments t B : clear implicits.
Arguments ModeSetter B : clear implicits.
End HD44780.

(** [NewGPIO4Bit]: every pin that is not nil is set to the output direction,
    then [New] runs on the bus made of the seven pins.  The result is
    [(nil, err)] unless the outcome is [Nil]. *)
Definition NewGPIO4Bit (rs en d4 d5 d6 d7 backlight : option embd.DigitalPin)
    (modes : list (HD44780.ModeSetter (GPIO4BitBus.t * embd.GPIO)))
    (w : embd.GPIO) : outcome * HD44780.t (GPIO4BitBus.t * embd.GPIO) :=
  let pins := [rs; en; d4; d5; d6; d7; backlight] in
  let bus :=
    {| GPIO4BitBus.RS := rs; GPIO4BitBus.EN := en;
       GPIO4BitBus.D4 := d4; GPIO4BitBus.D5 := d5;
       GPIO4BitBus.D6 := d6; GPIO4BitBus.D7 := d7;
       GPIO4BitBus.Backlight := backlight |} in
  let set_out pin : action embd.GPIO :=
    match pin with
    | None => fun w => (Nil, w)
    | Some p => embd.pin_call (Some p) (embd.SetDirection embd.Out)
    end in
  match run_all (map set_out pins) w with
  | (Nil, w') => HD44780.New (bus, w') modes
  | (r, w') =>
      (r, {| HD44780.bus := (bus, w'); HD44780.eMode := 0x00;
             HD44780.dMode := 0x00; HD44780.fMode := 0x00 |})
  end.

(** [NewI2C] *)
Definition NewI2C (pinMap : I2CPinMap.t)
    (modes : list (HD44780.ModeSetter (I2CBus.t * embd.I2C)))
    (w : embd.I2C) : outcome * HD44780.t (I2CBus.t * embd.I2C) :=
  HD44780.New ({| I2CBus.PinMap := pinMap; I2CBus.Backlight := false |}, w) modes.

(* ================================================================== *)
(** ** controller/hd44780/character_display.go *)

Class BacklightBus (L : Type) : Type := {
  backlight_Off : action L;
  backlight_On : action L;
  backlight_Close : action L
}.

(** [[]byte{...}[i]] for an [int] index: out of range is a panic ([None]). *)
Definition index (l : list Z) (i : Z) : option Z :=
  if i <? 0 then None else nth_error l (Z.to_nat i).

(** [[]byte(message)] *)
Definition bytes_of_string (message : string) : list Z :=
  map (fun a => Z.of_N (Ascii.N_of_ascii a)) (list_ascii_of_string message).

Module CharacterDisplay.
Section Display.
Context {B L : Type} `{HD44780Bus B} `{BacklightBus L}.

Record position : Type := { col : Z; row : Z }.

Record t : Type := {
  controller : HD44780.t B;        (* the embedded *HD44780 *)
  Backlight : option L;            (* a BacklightBus, or nil *)
  Cols : Z;
  Rows : Z;
  p : position
}.

Definition set_controller (c : HD44780.t B) (disp : t) : t :=
  {| controller := c; Backlight := Backlight disp; Cols := Cols disp;
     Rows := Rows disp; p := p disp |}.

Definition set_Backlight (l : option L) (disp : t) : t :=
  {| controller := controller disp; Backlight := l; Cols := Cols disp;
     Rows := Rows disp; p := p disp |}.

Definition currentPosition (col row : Z) (disp : t) : t :=
  {| controller := controller disp; Backlight := Backlight disp;
     Cols := Cols disp; Rows := Rows disp;
     p := {| col := col; row := row |} |}.

(** A method promoted from the embedded [*HD44780]. *)
Definition on_controller (f : action (HD44780.t B)) : action t :=
  fun disp => let (r, c') := f (controller disp) in (r, set_controller c' disp).

Definition WriteChar (value : Z) : action t := on_controller (HD44780.WriteChar value).
Definition SetMode (modes : list (HD44780.ModeSetter B)) : action t :=
  on_controller (HD44780.SetMode modes).
Definition BacklightOn : action t := on_controller HD44780.BacklightOn.

Definition isLeftToRight (disp : t) : bool :=
  let e := HD44780.eMode (controller disp) in
  negb (Z.land (Z.shiftr e 1) 0x01 =? Z.land e 0x01).

Definition lcdRowOffset (row : Z) (disp : t) : option Z :=
  let row := if row >? 3 then 3 else row in
  if Cols disp =? 16
  then index [0x00; 0x40; 0x10; 0x50] row
  else index [0x00; 0x40; 0x14; 0x54] row.

Definition SetCursor (col row : Z) : action t :=
  fun disp =>
    let row := if row >=? Rows disp then int_wrap (Rows disp - 1) else row in
    let disp := currentPosition col row disp in
    match lcdRowOffset row disp with
    | None => (Panic, disp)
    | Some offset =>
        on_controller (HD44780.SetCursor (byte_wrap (byte_of_int col + offset))) disp
    end.

Definition Home : action t :=
  fun disp => on_controller HD44780.Home (currentPosition 0 0 disp).

Definition Clear : action t :=
  fun disp =>
    let disp := currentPosition 0 0 disp in
    (on_controller HD44780.Clear ;;
     SetMode [] ;;
     (fun disp =>
        if negb (isLeftToRight disp)
        then SetCursor (int_wrap (Cols disp - 1)) 0 disp
        else (Nil, disp))) disp.

Definition Newline : action t :=
  fun disp =>
    let col := if isLeftToRight disp then 0 else int_wrap (Cols disp - 1) in
    SetCursor col (int_wrap (row (p disp) + 1)) disp.

Definition set_col (c : Z) (disp : t) : t :=
  {| controller := controller disp; Backlight := Backlight disp;
     Cols := Cols disp; Rows := Rows disp;
     p := {| col := c; row := row (p disp) |} |}.

(** The body of the loop of [Message] for the byte [b]; both [continue] and
    the end of the body go on with the next byte. *)
Definition Message_body (b : Z) : action t :=
  fun disp =>
    if b =? 10 then Newline disp
    else
      (WriteChar b ;;
       (fun disp =>
          let disp :=
            if isLeftToRight disp
            then set_col (int_wrap (col (p disp) + 1)) disp
            else set_col (int_wrap (col (p disp) - 1)) disp in
          if (col (p disp) >=? Cols disp) || (col (p disp) <? 0)
          then Newline disp
          else (Nil, disp))) disp.

Definition Message_bytes (bytes : list Z) : action t :=
  run_all (map Message_body bytes).

Definition Message (message : string) : action t :=
  Message_bytes (bytes_of_string message).

Definition Close : action t :=
  (on_controller HD44780.Close ;;
   (fun disp =>
      match Backlight disp with
      | None => (Panic, disp)
      | Some l => let (r, l') := backlight_Close l in (r, set_Backlight (Some l') disp)
      end)).

End Display.
Arguments t B L : clear implicits.
Arguments position : clear implicits.
End CharacterDisplay.

(** [NewCharacterDisplay] for pin arguments that already are digital pins or
    nil (the lookup of other keys through [embd.NewDigitalPin] belongs to the
    host layer).  [inl] is the result [(nil, err)] with the state left
    behind; [inr (r, display)] is the result [(display, r)], where [r] is
    the outcome of [display.BacklightOn()]. *)
Definition NewCharacterDisplay {L : Type} `{BacklightBus L}
    (rs en d4 d5 d6 d7 backlight : option embd.DigitalPin) (cols rows : Z)
    (modes : list (HD44780.ModeSetter (GPIO4BitBus.t * embd.GPIO)))
    (w : embd.GPIO)
  : (outcome * HD44780.t (GPIO4BitBus.t * embd.GPIO))
    + (outcome * CharacterDisplay.t (GPIO4BitBus.t * embd.GPIO) L) :=
  let defaultModes :=
    [ HD44780.FourBitMode; HD44780.OneLine; HD44780.Dots5x8;
      HD44780.EntryIncrement; HD44780.EntryShiftOff; HD44780.DisplayOn;
      HD44780.CursorOff; HD44780.BlinkOff ] in
  match NewGPIO4Bit rs en d4 d5 d6 d7 backlight (defaultModes ++ modes) w with
  | (Nil, controller) =>
      let display :=
        {| CharacterDisplay.controller := controller;
           CharacterDisplay.Backlight := None;
           CharacterDisplay.Cols := cols;
           CharacterDisplay.Rows := rows;
           CharacterDisplay.p :=
             {| CharacterDisplay.col := 0; CharacterDisplay.row := 0 |} |} in
      inr (CharacterDisplay.BacklightOn display)
  | (r, controller) => inl (r, controller)
  end.

(* ================================================================== *)
(** ** interface/display/characterdisplay/character_display.go *)

Class Controller (C : Type) : Type := {
  ctl_WriteChar : Z -> action C;
  ctl_SetCursor : Z -> Z -> action C;
  ctl_IsLeftToRight : C -> bool;
  ctl_Cols : C -> Z;
  ctl_Rows : C -> Z;
  ctl_Home : action C;
  ctl_Clear : action C;
  ctl_Close : action C
}.

Module characterdisplay.
Section Display.
Context {C : Type} `{Controller C}.

Record position : Type := { col : Z; row : Z }.

Record t : Type := {
  controller : C;      (* the embedded Controller *)
  p : position
}.

Definition New (controller : C) : t :=
  {| controller := controller; p := {| col := 0; row := 0 |} |}.

Definition set_controller (c : C) (disp : t) : t :=
  {| controller := c; p := p disp |}.

Definition setCurrentPosition (col row : Z) (disp : t) : t :=
  {| controller := controller disp; p := {| col := col; row := row |} |}.

(** A method of the embedded [Controller]. *)
Definition on_controller (f : action C) : action t :=
  fun disp => let (r, c') := f (controller disp) in (r, set_controller c' disp).

Definition IsLeftToRight (disp : t) : bool := ctl_IsLeftToRight (controller disp).
Definition Cols (disp : t) : Z := ctl_Cols (controller disp).
Definition Rows (disp : t) : Z := ctl_Rows (controller disp).
Definition WriteChar (b : Z) : action t := on_controller (ctl_WriteChar b).
Definition Close : action t := on_controller ctl_Close.

Definition SetCursor (col row : Z) : action t :=
  fun disp =>
    let row := if row >=? Rows disp then int_wrap (Rows disp - 1) else row in
    let disp := setCurrentPosition col row disp in
    on_controller (ctl_SetCursor col row) disp.

Definition Home : action t :=
  fun disp => on_controller ctl_Home (setCurrentPosition 0 0 disp).

Definition Clear : action t :=
  fun disp =>
    let disp := setCurrentPosition 0 0 disp in
    (on_controller ctl_Clear ;;
     (fun disp =>
        if negb (IsLeftToRight disp)
        then SetCursor (int_wrap (Cols disp - 1)) 0 disp
        else (Nil, disp))) disp.

Definition Newline : action t :=
  fun disp =>
    let col := if IsLeftToRight disp then 0 else int_wrap (Cols disp - 1) in
    SetCursor col (int_wrap (row (p disp) + 1)) disp.

Definition set_col (c : Z) (disp : t) : t :=
  {| controller := controller disp; p := {| col := c; row := row (p disp) |} |}.

(** The body of the loop of [Message] for the byte [b]. *)
Definition Message_body (b : Z) : action t :=
  fun disp =>
    if b =? 10 then Newline disp
    else
      (WriteChar b ;;
       (fun disp =>
          let disp :=
            if IsLeftToRight disp
            then set_col (int_wrap (col (p disp) + 1)) disp
            else set_col (int_wrap (col (p disp) - 1)) disp in
          if (col (p disp) >=? Cols disp) || (col (p disp) <? 0)
          then Newline disp
          else (Nil, disp))) disp.

Definition Message_bytes (bytes : list Z) : action t :=
  run_all (map Message_body bytes).

Definition Message (message : string) : action t :=
  Message_bytes (bytes_of_string message).

End Display.
Arguments t C : clear implicits.
Arguments position : clear implicits.
End characterdisplay.

(** A controller seen from the display layer: the history of the calls it
    received, the transport errors it answers with, the reading direction it
    reports (both as functions of the history), and its fixed geometry. *)
Module TraceController.

Inductive call : Type :=
| WriteChar (b : Z)
| SetCursor (col row : Z)
| Home
| Clear
| Close.

Record t : Type := {
  calls : list call;
  fault : list call -> option error;
  leftToRight : list call -> bool;
  cols : Z;
  rows : Z
}.

Definition invoke (c : call) : action t :=
  fun x =>
    let calls' := calls x ++ [c] in
    let x' := {| calls := calls'; fault := fault x; leftToRight := leftToRight x;
                 cols := cols x; rows := rows x |} in
    match fault x calls' with
    | Some e => (Fail e, x')
    | None => (Nil, x')
    end.

#[global] Instance controller : Controller t := {
  ctl_WriteChar b := invoke (WriteChar b);
  ctl_SetCursor col row := invoke (SetCursor col row);
  ctl_IsLeftToRight x := leftToRight x (calls x);
  ctl_Cols := cols;
  ctl_Rows := rows;
  ctl_Home := invoke Home;
  ctl_Clear := invoke Clear;
  ctl_Close := invoke Close
}.

End TraceController.

(** A backlight bus seen from the display: the calls it received. *)
Module TraceBacklight.

Inductive call : Type := Off | On | Close.

Record t : Type := {
  calls : list call;
  fault : list call -> option error
}.

Definition invoke (c : call) : action t :=
  fun x =>
    let calls' := calls x ++ [c] in
    let x' := {| calls := calls'; fault := fault x |} in
    match fault x calls' with
    | Some e => (Fail e, x')
    | None => (Nil, x')
    end.

#[global] Instance backlight : BacklightBus t := {
  backlight_Off := invoke Off;
  backlight_On := invoke On;
  backlight_Close := invoke Close
}.

End TraceBacklight.

(* ================================================================== *)
(** * Vocabulary of the statements *)

(** Bit [k] of a byte, as the level of a line. *)
Definition bit (data k : Z) : Z := Z.b2z (Z.testbit data k).

(** The line writes of one bus write, in the words of the specification:
    register select, high nibble on D4..D7, an enable pulse, low nibble on
    D4..D7, an enable pulse. *)
Definition enable_pulse_writes (en : embd.DigitalPin) : list (embd.DigitalPin * embd.pin_op) :=
  [ (en, embd.PinWrite embd.Low); (en, embd.PinWrite embd.High);
    (en, embd.PinWrite embd.Low) ].

Definition nibble_writes (d4 d5 d6 d7 : embd.DigitalPin) (data k : Z)
  : list (embd.DigitalPin * embd.pin_op) :=
  [ (d4, embd.PinWrite (bit data k)); (d5, embd.PinWrite (bit data (k + 1)));
    (d6, embd.PinWrite (bit data (k + 2))); (d7, embd.PinWrite (bit data (k + 3))) ].

Definition line_writes (be : GPIO4BitBusEmulator.t) (rs : bool) (data : Z)
  : list (embd.DigitalPin * embd.pin_op) :=
  let '(GPIO4BitBusEmulator.Build_t prs pen p4 p5 p6 p7 _) := be in
  [ (prs, embd.PinWrite (if rs then embd.High else embd.Low)) ]
  ++ nibble_writes p4 p5 p6 p7 data 4
  ++ enable_pulse_writes pen
  ++ nibble_writes p4 p5 p6 p7 data 0
  ++ enable_pulse_writes pen.

(** What the emulator latches from the four data lines. *)
Definition latched (data k : Z) (b : Z) : Z :=
  Z.lor (Z.lor (Z.lor (Z.lor b
    (byte_shl (byte_of_int (bit data k)) k))
    (byte_shl (byte_of_int (bit data (k + 1))) (k + 1)))
    (byte_shl (byte_of_int (bit data (k + 2))) (k + 2)))
    (byte_shl (byte_of_int (bit data (k + 3))) (k + 3)).

Definition bus_of_emulator (be : GPIO4BitBusEmulator.t) : GPIO4BitBus.t :=
  {| GPIO4BitBus.RS := Some (GPIO4BitBusEmulator.rs be);
     GPIO4BitBus.EN := Some (GPIO4BitBusEmulator.en be);
     GPIO4BitBus.D4 := Some (GPIO4BitBusEmulator.d4 be);
     GPIO4BitBus.D5 := Some (GPIO4BitBusEmulator.d5 be);
     GPIO4BitBus.D6 := Some (GPIO4BitBusEmulator.d6 be);
     GPIO4BitBus.D7 := Some (GPIO4BitBusEmulator.d7 be);
     GPIO4BitBus.Backlight := Some (GPIO4BitBusEmulator.backlight be) |}.

Definition wired (bus : GPIO4BitBus.t) (be : GPIO4BitBusEmulator.t) : Prop :=
  GPIO4BitBus.RS bus = Some (GPIO4BitBusEmulator.rs be) /\
  GPIO4BitBus.EN bus = Some (GPIO4BitBusEmulator.en be) /\
  GPIO4BitBus.D4 bus = Some (GPIO4BitBusEmulator.d4 be) /\
  GPIO4BitBus.D5 bus = Some (GPIO4BitBusEmulator.d5 be) /\
  GPIO4BitBus.D6 bus = Some (GPIO4BitBusEmulator.d6 be) /\
  GPIO4BitBus.D7 bus = Some (GPIO4BitBusEmulator.d7 be).

Definition distinct_lines (be : GPIO4BitBusEmulator.t) : Prop :=
  NoDup [ GPIO4BitBusEmulator.rs be; GPIO4BitBusEmulator.en be;
          GPIO4BitBusEmulator.d4 be; GPIO4BitBusEmulator.d5 be;
          GPIO4BitBusEmulator.d6 be; GPIO4BitBusEmulator.d7 be ].

Definition test_emulator : GPIO4BitBusEmulator.t :=
  GPIO4BitBusEmulator.Build_t 0%nat 1%nat 2%nat 3%nat 4%nat 5%nat 6%nat.

(** The calls [todo] are attempted in order on a traced device until the
    first one that the device answers with an error: the outcome and the
    history afterwards. *)
Fixpoint attempts {A : Type} (fault : list A -> option error) (log todo : list A)
  : outcome * list A :=
  match todo with
  | [] => (Nil, log)
  | c :: todo' =>
      match fault (log ++ [c]) with
      | Some e => (Fail e, log ++ [c])
      | None => attempts fault (log ++ [c]) todo'
      end
  end.

(** The controller [x] after its bus was asked to perform [todo]. *)
Definition sends (x : HD44780.t TraceBus.t) (todo : list TraceBus.call)
  : outcome * HD44780.t TraceBus.t :=
  let b := HD44780.bus x in
  let (r, log') := attempts (TraceBus.fault b) (TraceBus.calls b) todo in
  (r, HD44780.set_bus {| TraceBus.calls := log'; TraceBus.fault := TraceBus.fault b |} x).


Definition same_modes {B : Type} (x y : HD44780.t B) : Prop :=
  HD44780.eMode x = HD44780.eMode y /\
  HD44780.dMode x = HD44780.dMode y /\
  HD44780.fMode x = HD44780.fMode y.

(** Whether the bit(s) [flag] are set in the mode byte [mode]. *)
Definition flag_set (mode flag : Z) : bool := negb (Z.land mode flag =? 0).

(** A controller on a trace bus with the given entry mode byte. *)
Definition controller_with_eMode (e : Z) : HD44780.t TraceBus.t :=
  {| HD44780.bus := {| TraceBus.calls := []; TraceBus.fault := fun _ => None |};
     HD44780.eMode := e; HD44780.dMode := 0; HD44780.fMode := 0 |}.

(** A display on a trace bus. *)
Definition display_on (x : HD44780.t TraceBus.t) (cols rows col row : Z)
  : CharacterDisplay.t TraceBus.t TraceBacklight.t :=
  {| CharacterDisplay.controller := x;
     CharacterDisplay.Backlight := None;
     CharacterDisplay.Cols := cols;
     CharacterDisplay.Rows := rows;
     CharacterDisplay.p :=
       {| CharacterDisplay.col := col; CharacterDisplay.row := row |} |}.

(** The rule for [isLeftToRight] as the specification words it: true
    exactly when increment XOR shift-on is false. *)
Definition isLeftToRight_when_xor_false
    (disp : CharacterDisplay.t TraceBus.t TraceBacklight.t) : Prop :=
  let e := HD44780.eMode (CharacterDisplay.controller disp) in
  CharacterDisplay.isLeftToRight disp = true <->
  xorb (flag_set e lcdEntryIncrement) (flag_set e lcdEntryShiftOn) = false.

(** The feature bits of the three mode bytes. *)
Definition entry_features : Z := Z.lor lcdEntryIncrement lcdEntryShiftOn.
Definition display_features : Z :=
  Z.lor (Z.lor lcdDisplayOn lcdCursorOn) lcdBlinkOn.
Definition function_features : Z :=
  Z.lor (Z.lor lcd8BitMode lcd2Line) lcd5x10Dots.

(** [m] is the OR of zero or more of the bits of [features]: it has no bit
    outside of them. *)
Definition or_of_features (features m : Z) : Prop :=
  0 <= m /\ Z.land m features = m.

(** [m] is the OR of the bit [flag] and of zero or more bits of [features]. *)
Definition or_of_flag_and_features (flag features m : Z) : Prop :=
  exists f, or_of_features features f /\ m = Z.lor flag f.

Definition feature_bytes {B : Type} (x : HD44780.t B) : Prop :=
  or_of_features entry_features (HD44780.eMode x) /\
  or_of_features display_features (HD44780.dMode x) /\
  or_of_features function_features (HD44780.fMode x).

(** The mode setters handed to [New] and [SetMode] are those of the package. *)
Definition package_setters {B : Type} (modes : list (HD44780.ModeSetter B)) : Prop :=
  Forall (fun m => In m HD44780.setters) modes.

(** The methods of a controller. *)
Inductive method (B : Type) : Type :=
| MSetMode (modes : list (HD44780.ModeSetter B))
| MDisplayOff | MDisplayOn | MCursorOff | MCursorOn | MBlinkOff | MBlinkOn
| MShiftLeft | MShiftRight | MHome | MClear
| MSetCursor (value : Z)
| MWriteChar (value : Z)
| MWriteInstruction (value : Z)
| MWrite (rs : bool) (data : Z)
| MBacklightOff | MBacklightOn | MClose.

Arguments MSetMode {B} modes.
Arguments MDisplayOff {B}.
Arguments MDisplayOn {B}.
Arguments MCursorOff {B}.
Arguments MCursorOn {B}.
Arguments MBlinkOff {B}.
Arguments MBlinkOn {B}.
Arguments MShiftLeft {B}.
Arguments MShiftRight {B}.
Arguments MHome {B}.
Arguments MClear {B}.
Arguments MSetCursor {B} value.
Arguments MWriteChar {B} value.
Arguments MWriteInstruction {B} value.
Arguments MWrite {B} rs data.
Arguments MBacklightOff {B}.
Arguments MBacklightOn {B}.
Arguments MClose {B}.

Definition exec {B : Type} `{HD44780Bus B} (m : method B) : action (HD44780.t B) :=
  match m with
  | MSetMode modes => HD44780.SetMode modes
  | MDisplayOff => HD44780.do_DisplayOff
  | MDisplayOn => HD44780.do_DisplayOn
  | MCursorOff => HD44780.do_CursorOff
  | MCursorOn => HD44780.do_CursorOn
  | MBlinkOff => HD44780.do_BlinkOff
  | MBlinkOn => HD44780.do_BlinkOn
  | MShiftLeft => HD44780.ShiftLeft
  | MShiftRight => HD44780.ShiftRight
  | MHome => HD44780.Home
  | MClear => HD44780.Clear
  | MSetCursor v => HD44780.SetCursor v
  | MWriteChar v => HD44780.WriteChar v
  | MWriteInstruction v => HD44780.WriteInstruction v
  | MWrite rs v => HD44780.Write rs v
  | MBacklightOff => HD44780.BacklightOff
  | MBacklightOn => HD44780.BacklightOn
  | MClose => HD44780.Close
  end.

Definition method_of_package {B : Type} (m : method B) : Prop :=
  match m with
  | MSetMode modes => package_setters modes
  | _ => True
  end.

(** The states of a controller during its lifetime: the state [New] leaves
    behind, and the state after each method call. *)
Inductive lifetime {B : Type} `{HD44780Bus B} : HD44780.t B -> Prop :=
| born (b : B) (modes : list (HD44780.ModeSetter B)) :
    package_setters modes -> lifetime (snd (HD44780.New b modes))
| lives (x : HD44780.t B) (m : method B) :
    lifetime x -> method_of_package m -> lifetime (snd (exec m x)).

(** A trace bus that never fails. *)
Definition sound_bus : TraceBus.t :=
  {| TraceBus.calls := []; TraceBus.fault := fun _ => None |}.

(** The expander byte for the nibble of [data] that starts at bit [k]: each
    data bit shifted to its mapped position, OR'd with the RS bit when
    [rs] is set and with the backlight bit when [backlight] is on. *)
Definition expander_byte (pm : I2CPinMap.t) (rs backlight : bool) (data k : Z) : Z :=
  Z.lor
    (Z.lor
       (Z.lor (Z.lor (Z.lor (byte_shl (bit data k) (I2CPinMap.D4 pm))
                            (byte_shl (bit data (k + 1)) (I2CPinMap.D5 pm)))
                     (byte_shl (bit data (k + 2)) (I2CPinMap.D6 pm)))
              (byte_shl (bit data (k + 3)) (I2CPinMap.D7 pm)))
       (if rs then byte_shl 1 (I2CPinMap.RS pm) else 0))
    (if backlight then byte_shl 1 (I2CPinMap.Backlight pm) else 0).

(** The pulse sequence for one expander byte: the byte, the byte with the
    EN bit, the byte again, each a single-byte write to address 0x00. *)
Definition pulse_writes (pm : I2CPinMap.t) (b : Z) : list embd.i2c_op :=
  [ embd.WriteByte 0x00 b;
    embd.WriteByte 0x00 (Z.lor b (byte_shl 1 (I2CPinMap.EN pm)));
    embd.WriteByte 0x00 b ].

Definition expander_writes (pm : I2CPinMap.t) (rs backlight : bool) (data : Z)
  : list embd.i2c_op :=
  pulse_writes pm (expander_byte pm rs backlight data 4)
  ++ pulse_writes pm (expander_byte pm rs backlight data 0).

(** The I2C bus after [todo] was attempted on it. *)
Definition i2c_sends (w : embd.I2C) (todo : list embd.i2c_op) : outcome * embd.I2C :=
  let (r, log') := attempts (embd.i2c_fault w) (embd.i2c_log w) todo in
  (r, {| embd.i2c_log := log'; embd.i2c_fault := embd.i2c_fault w |}).

(** On a wiring table, the expander byte [b] carries the nibble of [data]
    that starts at bit [k] on the data positions, [rs] on the RS position,
    [backlight] on the backlight position, and nothing on EN and RW. *)
Definition carries (pm : I2CPinMap.t) (rs backlight : bool) (data k b : Z) : bool :=
  Bool.eqb (Z.testbit b (I2CPinMap.D4 pm)) (Z.testbit data k) &&
  Bool.eqb (Z.testbit b (I2CPinMap.D5 pm)) (Z.testbit data (k + 1)) &&
  Bool.eqb (Z.testbit b (I2CPinMap.D6 pm)) (Z.testbit data (k + 2)) &&
  Bool.eqb (Z.testbit b (I2CPinMap.D7 pm)) (Z.testbit data (k + 3)) &&
  Bool.eqb (Z.testbit b (I2CPinMap.RS pm)) rs &&
  Bool.eqb (Z.testbit b (I2CPinMap.Backlight pm)) backlight &&
  negb (Z.testbit b (I2CPinMap.EN pm)) &&
  negb (Z.testbit b (I2CPinMap.RW pm)) &&
  (0 <=? b) && (b <? 256).

(** An I2C bus that never fails. *)
Definition sound_i2c : embd.I2C :=
  {| embd.i2c_log := []; embd.i2c_fault := fun _ => None |}.

(** The display [disp] after the bus of its controller was asked to perform
    [todo]. *)
Definition disp_sends {L : Type} (disp : CharacterDisplay.t TraceBus.t L)
    (todo : list TraceBus.call) : outcome * CharacterDisplay.t TraceBus.t L :=
  let (r, x') := sends (CharacterDisplay.controller disp) todo in
  (r, CharacterDisplay.set_controller x' disp).

(** The calls received so far by the bus of a display. *)
Definition bus_calls {L : Type} (disp : CharacterDisplay.t TraceBus.t L)
  : list TraceBus.call :=
  TraceBus.calls (HD44780.bus (CharacterDisplay.controller disp)).

(** The row-offset table in the words of the specification. *)
Definition row_offset (cols row : Z) : Z :=
  let table := if cols =? 16 then [0; 64; 16; 80] else [0; 64; 20; 84] in
  nth (Z.to_nat (Z.min row 3)) table 0.

(** A display has at least one column and one row, and its geometry fits
    the type [int]. *)
Definition geometry (cols rows : Z) : Prop :=
  1 <= cols <= int_max /\ 1 <= rows <= int_max.

(** The set-DDRAM-address instruction for a column and a row. *)
Definition set_ddram (cols col row : Z) : TraceBus.call :=
  TraceBus.Write false
    (Z.lor lcdSetDDRamAddr (byte_wrap (byte_of_int col + row_offset cols row))).

(* ================================================================== *)
(** * Properties *)

(** ** Bytes and ints *)

Lemma forall_byte (f : Z -> bool) :
  forallb f (map Z.of_nat (seq 0 256)) = true ->
  forall z, is_byte z -> f z = true.
Proof.
  intros Hall z Hz.
  rewrite forallb_forall in Hall.
  apply Hall.
  replace z with (Z.of_nat (Z.to_nat z)) by (unfold is_byte in Hz; lia).
  apply in_map, in_seq.
  unfold is_byte in Hz; lia.
Qed.

Lemma int_wrap_id (z : Z) : is_int z -> int_wrap z = z.
Proof.
  unfold is_int, int_wrap, int_min, int_max; intros Hz.
  rewrite Z.mod_small; lia.
Qed.

Lemma int_wrap_is_int (z : Z) : is_int (int_wrap z).
Proof.
  unfold is_int, int_wrap, int_min, int_max.
  pose proof (Z.mod_pos_bound (z + 2 ^ 63) (2 ^ 64)); lia.
Qed.

(** ** Loops over closures *)

Lemma run_all_cons_Nil {S : Type} (f : action S) (fs : list (action S)) (s s' : S) :
  run_all (f :: fs) s = (Nil, s') ->
  exists s1, f s = (Nil, s1) /\ run_all fs s1 = (Nil, s').
Proof.
  simpl. destruct (f s) as [r s1] eqn:E.
  destruct r; intros Hr; try discriminate.
  exists s1; auto.
Qed.

Lemma run_all_app {S : Type} (fs gs : list (action S)) (s : S) :
  run_all (fs ++ gs) s =
  match run_all fs s with
  | (Nil, s') => run_all gs s'
  | (r, s') => (r, s')
  end.
Proof.
  revert s; induction fs as [|f fs IH]; intros s; simpl; [reflexivity|].
  destruct (f s) as [r s1]; destruct r; auto.
Qed.

(** ** The 4-bit bus *)

Lemma pin_call_Nil (p : option embd.DigitalPin) (op : embd.pin_op) (w w' : embd.GPIO) :
  embd.pin_call p op w = (Nil, w') ->
  exists n, p = Some n /\
    w' = {| embd.pin_log := embd.pin_log w ++ [(n, op)];
            embd.pin_fault := embd.pin_fault w |}.
Proof.
  unfold embd.pin_call. destruct p as [n|]; [|discriminate].
  destruct (embd.pin_fault w _); [discriminate|].
  intros Hr; injection Hr as <-. exists n; auto.
Qed.

Lemma land_shiftr_bit (data : Z) :
  is_byte data ->
  Z.land data 1 = bit data 0 /\
  Z.land (Z.shiftr data 1) 1 = bit data 1 /\
  Z.land (Z.shiftr data 2) 1 = bit data 2 /\
  Z.land (Z.shiftr data 3) 1 = bit data 3 /\
  Z.land (Z.shiftr data 4) 1 = bit data 4 /\
  Z.land (Z.shiftr data 5) 1 = bit data 5 /\
  Z.land (Z.shiftr data 6) 1 = bit data 6 /\
  Z.land (Z.shiftr data 7) 1 = bit data 7.
Proof.
  intros Hd.
  pose (f := fun d =>
    (Z.land d 1 =? bit d 0) && (Z.land (Z.shiftr d 1) 1 =? bit d 1) &&
    (Z.land (Z.shiftr d 2) 1 =? bit d 2) && (Z.land (Z.shiftr d 3) 1 =? bit d 3) &&
    (Z.land (Z.shiftr d 4) 1 =? bit d 4) && (Z.land (Z.shiftr d 5) 1 =? bit d 5) &&
    (Z.land (Z.shiftr d 6) 1 =? bit d 6) && (Z.land (Z.shiftr d 7) 1 =? bit d 7)).
  assert (Hf : f data = true) by (apply forall_byte; [vm_compute; reflexivity | exact Hd]).
  unfold f in Hf.
  repeat rewrite andb_true_iff in Hf. repeat rewrite Z.eqb_eq in Hf.
  intuition.
Qed.

Lemma latched_halves (data : Z) :
  is_byte data ->
  latched data 4 0 = 16 * (data / 16) /\
  latched data 0 (16 * (data / 16)) = data.
Proof.
  intros Hd.
  pose (f := fun d =>
    (latched d 4 0 =? 16 * (d / 16)) && (latched d 0 (16 * (d / 16)) =? d)).
  assert (Hf : f data = true) by (apply forall_byte; [vm_compute; reflexivity | exact Hd]).
  unfold f in Hf. rewrite andb_true_iff in Hf. repeat rewrite Z.eqb_eq in Hf.
  exact Hf.
Qed.

Lemma Write_Nil_log (rs : bool) (data : Z) (bus : GPIO4BitBus.t) (w w' : embd.GPIO) :
  is_byte data ->
  GPIO4BitBus.Write rs data bus w = (Nil, w') ->
  exists be, wired bus be /\
    w' = {| embd.pin_log := embd.pin_log w ++ line_writes be rs data;
            embd.pin_fault := embd.pin_fault w |}.
Proof.
  intros Hd Hw.
  destruct (land_shiftr_bit data Hd) as (B0 & B1 & B2 & B3 & B4 & B5 & B6 & B7).
  unfold GPIO4BitBus.Write in Hw.
  change 0x01 with 1 in Hw.
  rewrite B0, B1, B2, B3, B4, B5, B6, B7 in Hw.
  unfold GPIO4BitBus.pulseEnable in Hw. cbn [map] in Hw.
  repeat match type of Hw with
  | run_all (_ :: _) _ = (Nil, _) =>
      let s := fresh "s" in let H1 := fresh "H1" in
      apply run_all_cons_Nil in Hw; destruct Hw as (s & H1 & Hw)
  end.
  repeat match goal with
  | H : run_all (_ :: _) _ = (Nil, _) |- _ =>
      let s := fresh "s" in let H1 := fresh "H1" in
      apply run_all_cons_Nil in H; destruct H as (s & H1 & H)
  | H : run_all [] _ = (Nil, _) |- _ => cbn in H; injection H as H
  | H : embd.pin_call _ _ _ = (Nil, _) |- _ =>
      let n := fresh "n" in let E := fresh "E" in
      apply pin_call_Nil in H; destruct H as (n & E & H)
  end.
  clear B0 B1 B2 B3 B4 B5 B6 B7.
  destruct bus as [prs pen p4 p5 p6 p7 pbl]; cbn in *.
  subst.
  repeat match goal with
  | H : Some _ = Some _ |- _ => injection H as H; try subst
  end.
  match goal with
  | |- context [wired {| GPIO4BitBus.RS := Some ?a; GPIO4BitBus.EN := Some ?b;
                         GPIO4BitBus.D4 := Some ?c; GPIO4BitBus.D5 := Some ?d;
                         GPIO4BitBus.D6 := Some ?e; GPIO4BitBus.D7 := Some ?f;
                         GPIO4BitBus.Backlight := _ |}] =>
      exists (GPIO4BitBusEmulator.Build_t a b c d e f 0%nat)
  end.
  split; [repeat split|].
  cbn. f_equal. repeat rewrite <- app_assoc. reflexivity.
Qed.

Lemma NoDup6 (a b c d e f : nat) :
  NoDup [a; b; c; d; e; f] ->
  a <> b /\ a <> c /\ a <> d /\ a <> e /\ a <> f /\
  b <> c /\ b <> d /\ b <> e /\ b <> f /\
  c <> d /\ c <> e /\ c <> f /\
  d <> e /\ d <> f /\ e <> f.
Proof.
  intros Hn.
  repeat (apply NoDup_cons_iff in Hn; destruct Hn as [? Hn]).
  simpl in *. intuition.
Qed.

Ltac decide_eqb :=
  repeat match goal with
  | |- context [Nat.eqb ?a ?a] => rewrite (Nat.eqb_refl a)
  | |- context [Nat.eqb ?a ?b] => rewrite (proj2 (Nat.eqb_neq a b)) by lia
  end.

Lemma emulator_decodes (be : GPIO4BitBusEmulator.t) (rs : bool) (data : Z) :
  is_byte data ->
  distinct_lines be ->
  let r := if rs then 1 else 0 in
  exists c1,
    GPIO4BitBusEmulator.latch_high
      (GPIO4BitBusEmulator.channels_of be (line_writes be rs data))
      = Some (r, 16 * (data / 16), c1) /\
    GPIO4BitBusEmulator.latch_low r (16 * (data / 16)) c1
      = Some (Some {| GPIO4BitBusEmulator.ins_rs := r;
                      GPIO4BitBusEmulator.ins_data := data |},
              GPIO4BitBusEmulator.drained).
Proof.
  intros Hd Hn r.
  destruct (latched_halves data Hd) as [Hhi Hlo].
  destruct be as [prs pen p4 p5 p6 p7 pbl].
  unfold distinct_lines in Hn; cbn in Hn.
  apply NoDup6 in Hn.
  destruct Hn as (?&?&?&?&?&?&?&?&?&?&?&?&?&?&?).
  unfold GPIO4BitBusEmulator.channels_of, line_writes, nibble_writes,
    enable_pulse_writes.
  cbn [app GPIO4BitBusEmulator.values GPIO4BitBusEmulator.rs
       GPIO4BitBusEmulator.en GPIO4BitBusEmulator.d4 GPIO4BitBusEmulator.d5
       GPIO4BitBusEmulator.d6 GPIO4BitBusEmulator.d7].
  decide_eqb.
  eexists. split.
  - unfold GPIO4BitBusEmulator.latch_high, GPIO4BitBusEmulator.enable_pulse.
    cbn [GPIO4BitBusEmulator.recv GPIO4BitBusEmulator.c_en GPIO4BitBusEmulator.c_rs
         GPIO4BitBusEmulator.c_d4 GPIO4BitBusEmulator.c_d5 GPIO4BitBusEmulator.c_d6
         GPIO4BitBusEmulator.c_d7 GPIO4BitBusEmulator.recv_nibble].
    change (embd.Low =? embd.Low) with true.
    change (embd.High =? embd.High) with true.
    cbv iota.
    cbn [GPIO4BitBusEmulator.recv GPIO4BitBusEmulator.c_en GPIO4BitBusEmulator.c_rs
         GPIO4BitBusEmulator.c_d4 GPIO4BitBusEmulator.c_d5 GPIO4BitBusEmulator.c_d6
         GPIO4BitBusEmulator.c_d7 GPIO4BitBusEmulator.recv_nibble].
    fold (latched data 4 0). rewrite Hhi.
    subst r; destruct rs; reflexivity.
  - unfold GPIO4BitBusEmulator.latch_low, GPIO4BitBusEmulator.enable_pulse.
    cbn [GPIO4BitBusEmulator.recv GPIO4BitBusEmulator.c_en GPIO4BitBusEmulator.c_rs
         GPIO4BitBusEmulator.c_d4 GPIO4BitBusEmulator.c_d5 GPIO4BitBusEmulator.c_d6
         GPIO4BitBusEmulator.c_d7 GPIO4BitBusEmulator.recv_nibble].
    change (embd.Low =? embd.Low) with true.
    change (embd.High =? embd.High) with true.
    cbv iota.
    cbn [GPIO4BitBusEmulator.recv GPIO4BitBusEmulator.c_en GPIO4BitBusEmulator.c_rs
         GPIO4BitBusEmulator.c_d4 GPIO4BitBusEmulator.c_d5 GPIO4BitBusEmulator.c_d6
         GPIO4BitBusEmulator.c_d7 GPIO4BitBusEmulator.recv_nibble].
    fold (latched data 0 (16 * (data / 16))). rewrite Hlo.
    reflexivity.
Qed.

Lemma Write_on_sound_pins (be : GPIO4BitBusEmulator.t) (rs : bool) (data : Z) (w : embd.GPIO) :
  is_byte data ->
  (forall log, embd.pin_fault w log = None) ->
  GPIO4BitBus.Write rs data (bus_of_emulator be) w =
    (Nil, {| embd.pin_log := embd.pin_log w ++ line_writes be rs data;
             embd.pin_fault := embd.pin_fault w |}).
Proof.
  intros Hd Hf.
  destruct (land_shiftr_bit data Hd) as (B0 & B1 & B2 & B3 & B4 & B5 & B6 & B7).
  unfold GPIO4BitBus.Write.
  change 0x01 with 1.
  rewrite B0, B1, B2, B3, B4, B5, B6, B7.
  clear B0 B1 B2 B3 B4 B5 B6 B7.
  destruct be as [prs pen p4 p5 p6 p7 pbl].
  unfold GPIO4BitBus.pulseEnable, bus_of_emulator, embd.pin_call.
  cbn [map run_all GPIO4BitBus.RS GPIO4BitBus.EN GPIO4BitBus.D4 GPIO4BitBus.D5
       GPIO4BitBus.D6 GPIO4BitBus.D7 GPIO4BitBusEmulator.rs GPIO4BitBusEmulator.en
       GPIO4BitBusEmulator.d4 GPIO4BitBusEmulator.d5 GPIO4BitBusEmulator.d6
       GPIO4BitBusEmulator.d7 embd.pin_log embd.pin_fault].
  repeat (cbn [run_all embd.pin_log embd.pin_fault]; rewrite Hf).
  cbn [run_all embd.pin_log embd.pin_fault].
  f_equal. f_equal. cbn. repeat rewrite <- app_assoc. reflexivity.
Qed.

(** C1.  For every byte [data] and register-select flag [rs]:
    (1) on pins that do not fail, [GPIO4BitBus.Write] returns nil and appends
    to the history of line writes exactly [line_writes]: RS, the high nibble
    on D4..D7 (bit 4 on D4 up to bit 7 on D7), EN low, high, low, the low
    nibble on D4..D7 (bit 0 on D4 up to bit 3 on D7), EN low, high, low;
    (2) whenever [Write] returns nil, the six lines are wired and the
    history grew by exactly that sequence;
    (3) the emulator of the tests, on distinct lines, latches from that
    sequence the register select and the high half [16 * (data / 16)] at the
    first enable pulse and completes it to [data] at the second one, leaving
    nothing pending. *)
Theorem GPIO4BitBus_Write_line_sequence :
  forall (rs : bool) (data : Z), is_byte data ->
    (forall be w,
        (forall log, embd.pin_fault w log = None) ->
        GPIO4BitBus.Write rs data (bus_of_emulator be) w =
          (Nil, {| embd.pin_log := embd.pin_log w ++ line_writes be rs data;
                   embd.pin_fault := embd.pin_fault w |})) /\
    (forall bus w w',
        GPIO4BitBus.Write rs data bus w = (Nil, w') ->
        exists be, wired bus be /\
          embd.pin_log w' = embd.pin_log w ++ line_writes be rs data) /\
    (forall be, distinct_lines be ->
        let r := if rs then 1 else 0 in
        exists c1,
          GPIO4BitBusEmulator.latch_high
            (GPIO4BitBusEmulator.channels_of be (line_writes be rs data))
            = Some (r, 16 * (data / 16), c1) /\
          GPIO4BitBusEmulator.latch_low r (16 * (data / 16)) c1
            = Some (Some {| GPIO4BitBusEmulator.ins_rs := r;
                            GPIO4BitBusEmulator.ins_data := data |},
                    GPIO4BitBusEmulator.drained) /\
          GPIO4BitBusEmulator.iteration
            (GPIO4BitBusEmulator.channels_of be (line_writes be rs data))
            = Some (Some {| GPIO4BitBusEmulator.ins_rs := r;
                            GPIO4BitBusEmulator.ins_data := data |},
                    GPIO4BitBusEmulator.drained)).
Proof.
  intros rs data Hd. split; [|split].
  - intros be w Hf. apply Write_on_sound_pins; assumption.
  - intros bus w w' Hw.
    destruct (Write_Nil_log rs data bus w w' Hd Hw) as (be & Hwired & ->).
    exists be; split; [exact Hwired | reflexivity].
  - intros be Hn r.
    destruct (emulator_decodes be rs data Hd Hn) as (c1 & Hhi & Hlo).
    exists c1. split; [exact Hhi | split; [exact Hlo |]].
    unfold GPIO4BitBusEmulator.iteration.
    fold r in Hhi. rewrite Hhi. exact Hlo.
Qed.

(** Writing 0xAB with register select on. *)
Lemma GPIO4BitBus_Write_line_sequence_witness :
  is_byte 0xAB /\
  GPIO4BitBusEmulator.iteration
    (GPIO4BitBusEmulator.channels_of test_emulator (line_writes test_emulator true 0xAB))
  = Some (Some {| GPIO4BitBusEmulator.ins_rs := 1;
                  GPIO4BitBusEmulator.ins_data := 0xAB |},
          GPIO4BitBusEmulator.drained).
Proof.
  assert (Hb : is_byte 0xAB) by (unfold is_byte; lia).
  split; [exact Hb|].
  destruct (GPIO4BitBus_Write_line_sequence true 0xAB Hb) as (_ & _ & H3).
  destruct (H3 test_emulator) as (c1 & _ & _ & Hit).
  - unfold distinct_lines, test_emulator; cbn.
    repeat constructor; cbn; lia.
  - exact Hit.
Defined.

(** ** Traced devices *)

Lemma attempts_app {A : Type} (fault : list A -> option error) (log l1 l2 : list A) :
  attempts fault log (l1 ++ l2) =
  match attempts fault log l1 with
  | (Nil, log') => attempts fault log' l2
  | (r, log') => (r, log')
  end.
Proof.
  revert log; induction l1 as [|c l1 IH]; intros log; simpl; [reflexivity|].
  destruct (fault (log ++ [c])); [reflexivity | apply IH].
Qed.

(** The history after [attempts] is the old one followed by a prefix of the
    calls: all of them when the outcome is nil, and up to and including the
    call that failed otherwise; no call before the last one failed. *)
Lemma attempts_prefix {A : Type} (fault : list A -> option error) (todo log : list A) :
  exists k : nat,
    (k <= List.length todo)%nat /\
    snd (attempts fault log todo) = log ++ firstn k todo /\
    (forall j, (0 < j < k)%nat -> fault (log ++ firstn j todo) = None) /\
    match fst (attempts fault log todo) with
    | Nil => k = List.length todo /\ (todo <> [] -> fault (log ++ todo) = None)
    | Fail e => (0 < k)%nat /\ fault (log ++ firstn k todo) = Some e
    | Panic => False
    end.
Proof.
  revert log; induction todo as [|c todo IH]; intros log.
  - exists 0%nat; simpl. rewrite app_nil_r. repeat split; auto; try lia.
    intros Hne; congruence.
  - simpl. destruct (fault (log ++ [c])) as [e|] eqn:E.
    + exists 1%nat; simpl. repeat split; auto; try lia.
    + destruct (IH (log ++ [c])) as (k & Hk & Hlog & Hbefore & Hout).
      assert (Happ : forall l, (log ++ [c]) ++ l = log ++ c :: l)
        by (intros l; rewrite <- app_assoc; reflexivity).
      rewrite Happ in Hlog.
      exists (Datatypes.S k); simpl.
      split; [lia|]. split; [exact Hlog|]. split.
      * intros j Hj. destruct j as [|j]; [lia|]. simpl.
        destruct j as [|j]; [simpl; exact E|].
        rewrite <- Happ. apply Hbefore. lia.
      * destruct (fst (attempts fault (log ++ [c]) todo)).
        -- destruct Hout as [-> Hout]. split; [reflexivity|].
           intros _. destruct todo as [|c' todo']; [exact E|].
           rewrite <- Happ. apply Hout. discriminate.
        -- destruct Hout as [Hk0 Hout]. split; [lia|].
           rewrite <- Happ. exact Hout.
        -- exact Hout.
Qed.

Lemma Write_sends (rs : bool) (v : Z) (x : HD44780.t TraceBus.t) :
  HD44780.Write rs v x = sends x [TraceBus.Write rs v].
Proof.
  unfold HD44780.Write, HD44780.on_bus, sends; simpl.
  unfold TraceBus.invoke.
  destruct (TraceBus.fault (HD44780.bus x) _); reflexivity.
Qed.

Lemma sends_modes (x : HD44780.t TraceBus.t) (todo : list TraceBus.call) :
  same_modes (snd (sends x todo)) x.
Proof.
  unfold sends. destruct (attempts _ _ todo); simpl.
  unfold same_modes; auto.
Qed.



Lemma sends_nil (x : HD44780.t TraceBus.t) : sends x [] = (Nil, x).
Proof. unfold sends; simpl. destruct x as [[c f] e d fm]; reflexivity. Qed.


(** ** C5: SetMode *)



(** ** C4: isLeftToRight *)

Lemma land_1_testbit (a : Z) : Z.land a 1 = Z.b2z (Z.testbit a 0).
Proof.
  rewrite Z.bit0_mod. change 1 with (Z.ones 1). rewrite Z.land_ones by lia.
  reflexivity.
Qed.

Lemma flag_set_pow2 (e k : Z) : 0 <= k -> flag_set e (2 ^ k) = Z.testbit e k.
Proof.
  intros Hk. unfold flag_set.
  destruct (Z.testbit e k) eqn:E.
  - destruct (Z.land e (2 ^ k) =? 0) eqn:E0; [|reflexivity].
    apply Z.eqb_eq in E0.
    assert (Hb : Z.testbit (Z.land e (2 ^ k)) k = true).
    { rewrite Z.land_spec, E, Z.pow2_bits_eqb, Z.eqb_refl by lia. reflexivity. }
    rewrite E0, Z.bits_0 in Hb. discriminate.
  - replace (Z.land e (2 ^ k)) with 0; [reflexivity|].
    symmetry. apply Z.bits_inj'. intros n Hn.
    rewrite Z.bits_0, Z.land_spec, Z.pow2_bits_eqb by lia.
    destruct (Z.eqb_spec k n) as [->|]; [rewrite E|]; auto using andb_false_r.
Qed.

Lemma isLeftToRight_bits {B L : Type} (disp : CharacterDisplay.t B L) :
  let e := HD44780.eMode (CharacterDisplay.controller disp) in
  CharacterDisplay.isLeftToRight disp = xorb (Z.testbit e 1) (Z.testbit e 0).
Proof.
  intros e. unfold CharacterDisplay.isLeftToRight. fold e.
  change 0x01 with 1. rewrite !land_1_testbit.
  rewrite Z.shiftr_spec by lia. change (0 + 1) with 1.
  destruct (Z.testbit e 1), (Z.testbit e 0); reflexivity.
Qed.

(** C4, as amended.  For every entry-mode byte, [isLeftToRight] is true
    exactly when (entry-increment bit set) XOR (entry-shift-on bit set) is
    true: after the setters increment + shift-off and decrement + shift-on
    the display reads left to right, and after increment + shift-on and
    decrement + shift-off it reads right to left. *)
Theorem isLeftToRight_is_increment_xor_shift :
  forall (B L : Type) (disp : CharacterDisplay.t B L),
    let x := CharacterDisplay.controller disp in
    let e := HD44780.eMode x in
    let after (m1 m2 : HD44780.ModeSetter B) :=
      CharacterDisplay.isLeftToRight (CharacterDisplay.set_controller (m2 (m1 x)) disp) in
    CharacterDisplay.isLeftToRight disp
      = xorb (flag_set e lcdEntryIncrement) (flag_set e lcdEntryShiftOn) /\
    after HD44780.EntryIncrement HD44780.EntryShiftOff = true /\
    after HD44780.EntryDecrement HD44780.EntryShiftOn = true /\
    after HD44780.EntryIncrement HD44780.EntryShiftOn = false /\
    after HD44780.EntryDecrement HD44780.EntryShiftOff = false.
Proof.
  intros B L disp x e after.
  split.
  - rewrite isLeftToRight_bits. fold x e.
    change lcdEntryIncrement with (2 ^ 1). change lcdEntryShiftOn with (2 ^ 0).
    rewrite !flag_set_pow2 by lia. reflexivity.
  - unfold after. rewrite !isLeftToRight_bits.
    cbn [CharacterDisplay.set_controller CharacterDisplay.controller
         HD44780.EntryIncrement HD44780.EntryDecrement HD44780.EntryShiftOff
         HD44780.EntryShiftOn HD44780.set_eMode HD44780.eMode].
    fold e.
    repeat rewrite ?Z.lor_spec, ?Z.land_spec.
    change (Z.testbit (byte_not lcdEntryIncrement) 1) with false.
    change (Z.testbit (byte_not lcdEntryIncrement) 0) with true.
    change (Z.testbit (byte_not lcdEntryShiftOn) 1) with true.
    change (Z.testbit (byte_not lcdEntryShiftOn) 0) with false.
    change (Z.testbit lcdEntryIncrement 1) with true.
    change (Z.testbit lcdEntryIncrement 0) with false.
    change (Z.testbit lcdEntryShiftOn 1) with false.
    change (Z.testbit lcdEntryShiftOn 0) with true.
    destruct (Z.testbit e 1), (Z.testbit e 0); cbn; auto.
Qed.

(** The rule as the specification words it fails on the default entry mode
    (increment, shift off: the byte 0x02), which reads left to right although
    increment XOR shift-on is true. *)
Lemma isLeftToRight_when_xor_false_fails :
  ~ isLeftToRight_when_xor_false (display_on (controller_with_eMode 0x02) 16 2 0 0).
Proof.
  unfold isLeftToRight_when_xor_false. intros [Hltr _].
  specialize (Hltr eq_refl). vm_compute in Hltr. discriminate.
Qed.

(** ** C8: the mode bytes *)

Lemma or_of_features_lor (features m flag : Z) :
  0 <= flag -> Z.land flag features = flag ->
  or_of_features features m -> or_of_features features (Z.lor m flag).
Proof.
  intros Hf Hflag [Hm Hland]. split.
  - apply Z.lor_nonneg; auto.
  - rewrite Z.land_lor_distr_l, Hland, Hflag. reflexivity.
Qed.

Lemma or_of_features_land (features m mask : Z) :
  or_of_features features m -> or_of_features features (Z.land m mask).
Proof.
  intros [Hm Hland]. split.
  - apply Z.land_nonneg; auto.
  - rewrite <- Z.land_assoc, (Z.land_comm mask), Z.land_assoc, Hland. reflexivity.
Qed.

Lemma setter_feature_bytes {B : Type} (m : HD44780.ModeSetter B) (x : HD44780.t B) :
  In m HD44780.setters -> feature_bytes x -> feature_bytes (m x).
Proof.
  intros Hin (He & Hd & Hf).
  unfold HD44780.setters in Hin; simpl in Hin.
  repeat (destruct Hin as [<- | Hin]; [
    unfold feature_bytes;
    cbv [HD44780.EntryDecrement HD44780.EntryIncrement HD44780.EntryShiftOff
         HD44780.EntryShiftOn HD44780.DisplayOff HD44780.DisplayOn
         HD44780.CursorOff HD44780.CursorOn HD44780.BlinkOff HD44780.BlinkOn
         HD44780.FourBitMode HD44780.EightBitMode HD44780.OneLine HD44780.TwoLine
         HD44780.Dots5x8 HD44780.Dots5x10
         HD44780.set_eMode HD44780.set_dMode HD44780.set_fMode
         HD44780.eMode HD44780.dMode HD44780.fMode];
    (split; [|split]);
    first [ assumption
          | apply or_of_features_land; assumption
          | apply or_of_features_lor; [vm_compute; discriminate | reflexivity | assumption] ]
    |]).
  contradiction.
Qed.

Lemma setter_keeps_bus {B : Type} (m : HD44780.ModeSetter B) (x : HD44780.t B) :
  In m HD44780.setters -> HD44780.bus (m x) = HD44780.bus x.
Proof.
  intros Hin. unfold HD44780.setters in Hin; simpl in Hin.
  repeat (destruct Hin as [<- | Hin]; [reflexivity|]).
  contradiction.
Qed.

Lemma apply_modes_feature_bytes {B : Type} (modes : list (HD44780.ModeSetter B))
    (x : HD44780.t B) :
  package_setters modes -> feature_bytes x -> feature_bytes (HD44780.apply_modes modes x).
Proof.
  unfold HD44780.apply_modes, package_setters.
  revert x; induction modes as [|m modes IH]; intros x Hall Hx; simpl; [exact Hx|].
  inversion Hall; subst.
  apply IH; [assumption|]. apply setter_feature_bytes; assumption.
Qed.

Lemma apply_modes_keeps_bus {B : Type} (modes : list (HD44780.ModeSetter B))
    (x : HD44780.t B) :
  package_setters modes -> HD44780.bus (HD44780.apply_modes modes x) = HD44780.bus x.
Proof.
  unfold HD44780.apply_modes, package_setters.
  revert x; induction modes as [|m modes IH]; intros x Hall; simpl; [reflexivity|].
  inversion Hall; subst.
  rewrite IH by assumption. apply setter_keeps_bus; assumption.
Qed.

Section AnyBus.
Context {B : Type} `{HD44780Bus B}.

Lemma on_bus_same_modes (f : action B) (x : HD44780.t B) :
  same_modes (snd (HD44780.on_bus f x)) x.
Proof.
  unfold HD44780.on_bus. destruct (f (HD44780.bus x)); simpl.
  unfold same_modes; auto.
Qed.

Lemma same_modes_feature_bytes (x y : HD44780.t B) :
  same_modes y x -> feature_bytes x -> feature_bytes y.
Proof.
  intros (He & Hd & Hf) Hx. unfold feature_bytes. rewrite He, Hd, Hf. exact Hx.
Qed.

Lemma run_all_invariant {S : Type} (P : S -> Prop) (fs : list (action S)) (s : S) :
  Forall (fun f => forall s, P s -> P (snd (f s))) fs ->
  P s -> P (snd (run_all fs s)).
Proof.
  revert s; induction fs as [|f fs IH]; intros s Hall Hs; simpl; [exact Hs|].
  inversion Hall as [|f' fs' Hf Hfs]; subst.
  specialize (Hf s Hs). destruct (f s) as [r s1]; simpl in Hf.
  destruct r; simpl; auto.
Qed.

Lemma and_then_invariant {S : Type} (P : S -> Prop) (f g : action S) (s : S) :
  (forall s, P s -> P (snd (f s))) ->
  (forall s, P s -> P (snd (g s))) ->
  P s -> P (snd ((f ;; g) s)).
Proof.
  intros Hf Hg Hs. unfold and_then.
  specialize (Hf s Hs). destruct (f s) as [r s1]; simpl in Hf.
  destruct r; simpl; auto.
Qed.

Lemma Write_feature_bytes (rs : bool) (v : Z) (x : HD44780.t B) :
  feature_bytes x -> feature_bytes (snd (HD44780.Write rs v x)).
Proof.
  intros Hx. eapply same_modes_feature_bytes; [|exact Hx].
  apply on_bus_same_modes.
Qed.

Lemma SetMode_feature_bytes (modes : list (HD44780.ModeSetter B)) (x : HD44780.t B) :
  package_setters modes -> feature_bytes x ->
  feature_bytes (snd (HD44780.SetMode modes x)).
Proof.
  intros Hall Hx. unfold HD44780.SetMode.
  apply run_all_invariant.
  - repeat (apply Forall_cons;
            [intros s Hs;
             unfold HD44780.setEntryMode, HD44780.setDisplayMode,
               HD44780.setFunctionMode, HD44780.WriteInstruction;
             apply Write_feature_bytes; exact Hs|]).
    apply Forall_nil.
  - apply apply_modes_feature_bytes; assumption.
Qed.

Lemma exec_feature_bytes (m : method B) (x : HD44780.t B) :
  method_of_package m -> feature_bytes x -> feature_bytes (snd (exec m x)).
Proof.
  intros Hm Hx.
  destruct m; cbn [exec];
    try (apply Write_feature_bytes; exact Hx);
    try (eapply same_modes_feature_bytes; [apply on_bus_same_modes | exact Hx]).
  - apply SetMode_feature_bytes; assumption.
  - apply Write_feature_bytes.
    apply (setter_feature_bytes HD44780.DisplayOff); [unfold HD44780.setters; simpl; tauto | exact Hx].
  - apply Write_feature_bytes.
    apply (setter_feature_bytes HD44780.DisplayOn); [unfold HD44780.setters; simpl; tauto | exact Hx].
  - apply Write_feature_bytes.
    apply (setter_feature_bytes HD44780.CursorOff); [unfold HD44780.setters; simpl; tauto | exact Hx].
  - apply Write_feature_bytes.
    apply (setter_feature_bytes HD44780.CursorOn); [unfold HD44780.setters; simpl; tauto | exact Hx].
  - apply Write_feature_bytes.
    apply (setter_feature_bytes HD44780.BlinkOff); [unfold HD44780.setters; simpl; tauto | exact Hx].
  - apply Write_feature_bytes.
    apply (setter_feature_bytes HD44780.BlinkOn); [unfold HD44780.setters; simpl; tauto | exact Hx].
Qed.

Lemma New_feature_bytes (b : B) (modes : list (HD44780.ModeSetter B)) :
  package_setters modes -> feature_bytes (snd (HD44780.New b modes)).
Proof.
  intros Hall. unfold HD44780.New.
  apply and_then_invariant.
  - intros s Hs. unfold HD44780.do_lcdInit.
    apply and_then_invariant; auto; intros s' Hs'; apply Write_feature_bytes; exact Hs'.
  - intros s Hs. apply SetMode_feature_bytes; assumption.
  - unfold feature_bytes, or_of_features; cbn. repeat split; lia.
Qed.

Lemma lifetime_feature_bytes (x : HD44780.t B) : lifetime x -> feature_bytes x.
Proof.
  induction 1 as [b modes Hall | x m Hx IH Hm].
  - apply New_feature_bytes; exact Hall.
  - apply exec_feature_bytes; assumption.
Qed.

End AnyBus.

Lemma set_mode_sends (x : HD44780.t TraceBus.t) :
  HD44780.setEntryMode x
    = sends x [TraceBus.Write false (Z.lor lcdSetEntryMode (HD44780.eMode x))] /\
  HD44780.setDisplayMode x
    = sends x [TraceBus.Write false (Z.lor lcdSetDisplayMode (HD44780.dMode x))] /\
  HD44780.setFunctionMode x
    = sends x [TraceBus.Write false (Z.lor lcdSetFunctionMode (HD44780.fMode x))].
Proof.
  unfold HD44780.setEntryMode, HD44780.setDisplayMode, HD44780.setFunctionMode,
    HD44780.WriteInstruction.
  rewrite !Write_sends. auto.
Qed.

(** C8, as amended.  At all times during a controller's lifetime, each
    in-memory mode byte (entry, display, function) is the OR of zero or more
    of that mode's feature bits, without the fixed "set" flag; the mode
    setters change the bytes in memory only (the bus is left as it is), and
    the flag is OR'd in when a flush emits the mode instruction, whose byte
    is then the OR of the flag and of feature bits. *)
Theorem mode_bytes_hold_feature_bits :
  forall (B : Type) (bus : HD44780Bus B),
    (forall x : HD44780.t B, lifetime x -> feature_bytes x) /\
    (forall (m : HD44780.ModeSetter B) (x : HD44780.t B),
        In m HD44780.setters -> HD44780.bus (m x) = HD44780.bus x) /\
    (forall x : HD44780.t TraceBus.t,
        HD44780.setEntryMode x
          = sends x [TraceBus.Write false (Z.lor lcdSetEntryMode (HD44780.eMode x))] /\
        HD44780.setDisplayMode x
          = sends x [TraceBus.Write false (Z.lor lcdSetDisplayMode (HD44780.dMode x))] /\
        HD44780.setFunctionMode x
          = sends x [TraceBus.Write false (Z.lor lcdSetFunctionMode (HD44780.fMode x))]) /\
    (forall x : HD44780.t B, lifetime x ->
        or_of_flag_and_features lcdSetEntryMode entry_features
          (Z.lor lcdSetEntryMode (HD44780.eMode x)) /\
        or_of_flag_and_features lcdSetDisplayMode display_features
          (Z.lor lcdSetDisplayMode (HD44780.dMode x)) /\
        or_of_flag_and_features lcdSetFunctionMode function_features
          (Z.lor lcdSetFunctionMode (HD44780.fMode x))).
Proof.
  intros B bus. split; [|split; [|split]].
  - intros x Hx. apply lifetime_feature_bytes; exact Hx.
  - intros m x Hin. apply setter_keeps_bus; exact Hin.
  - intros x. apply set_mode_sends.
  - intros x Hx. destruct (lifetime_feature_bytes x Hx) as (He & Hd & Hf).
    repeat split; eexists; (split; [eassumption | reflexivity]).
Qed.

(** The mode bytes of a fresh controller are zero: the entry mode byte in
    memory is not the OR of the "set entry mode" flag with anything. *)
Lemma fresh_entry_mode_lacks_set_flag :
  lifetime (snd (HD44780.New sound_bus [])) /\
  HD44780.eMode (snd (HD44780.New sound_bus [])) = 0 /\
  ~ or_of_flag_and_features lcdSetEntryMode entry_features
      (HD44780.eMode (snd (HD44780.New sound_bus []))).
Proof.
  split; [|split].
  - apply born. constructor.
  - reflexivity.
  - intros (f & _ & Hf). change (HD44780.eMode _) with 0 in Hf.
    symmetry in Hf. apply Z.lor_eq_0_iff in Hf. destruct Hf as [Hf _].
    discriminate.
Qed.

(** ** C6: the I2C expander bus *)

Lemma i2c_call_sends (op : embd.i2c_op) (w : embd.I2C) :
  embd.i2c_call op w = i2c_sends w [op].
Proof.
  unfold embd.i2c_call, i2c_sends; simpl.
  destruct (embd.i2c_fault w _); reflexivity.
Qed.

Lemma i2c_sends_app (w : embd.I2C) (l1 l2 : list embd.i2c_op) :
  i2c_sends w (l1 ++ l2) =
  match i2c_sends w l1 with
  | (Nil, w') => i2c_sends w' l2
  | (r, w') => (r, w')
  end.
Proof.
  unfold i2c_sends. rewrite attempts_app.
  destruct (attempts _ _ l1) as [r log']; destruct r; reflexivity.
Qed.

Lemma run_all_i2c_calls (ops : list embd.i2c_op) (w : embd.I2C) :
  run_all (map embd.i2c_call ops) w = i2c_sends w ops.
Proof.
  revert w; induction ops as [|op ops IH]; intros w.
  - unfold i2c_sends; simpl. destruct w; reflexivity.
  - change (op :: ops) with ([op] ++ ops) at 2.
    rewrite i2c_sends_app. simpl. rewrite i2c_call_sends.
    destruct (i2c_sends w [op]) as [r w']; destruct r; auto.
Qed.

Lemma pulseEnable_sends (bus : I2CBus.t) (b : Z) (w : embd.I2C) :
  I2CBus.pulseEnable bus b w = i2c_sends w (pulse_writes (I2CBus.PinMap bus) b).
Proof.
  unfold I2CBus.pulseEnable.
  rewrite (map_map (embd.WriteByte i2cAddr) embd.i2c_call
             [b; Z.lor b (byte_shl 1 (I2CPinMap.EN (I2CBus.PinMap bus))); b]) || idtac.
  exact (run_all_i2c_calls (pulse_writes (I2CBus.PinMap bus) b) w).
Qed.

Lemma I2CBus_Write_sends (rs : bool) (data : Z) (bus : I2CBus.t) (w : embd.I2C) :
  is_byte data ->
  I2CBus.Write rs data bus w =
  i2c_sends w (expander_writes (I2CBus.PinMap bus) rs (I2CBus.Backlight bus) data).
Proof.
  intros Hd.
  destruct (land_shiftr_bit data Hd) as (B0 & B1 & B2 & B3 & B4 & B5 & B6 & B7).
  unfold I2CBus.Write. change 0x01 with 1. change 0x00 with 0.
  rewrite B0, B1, B2, B3, B4, B5, B6, B7. rewrite !Z.lor_0_l.
  unfold expander_writes. rewrite i2c_sends_app.
  cbn [map run_all]. rewrite !pulseEnable_sends.
  unfold expander_byte.
  change (4 + 1) with 5. change (4 + 2) with 6. change (4 + 3) with 7.
  change (0 + 1) with 1. change (0 + 2) with 2. change (0 + 3) with 3.
  destruct rs, (I2CBus.Backlight bus); rewrite ?Z.lor_0_r;
    repeat (match goal with
            | |- context [i2c_sends ?a ?l] => destruct (i2c_sends a l) as [[|?|] ?]
            end; rewrite ?pulseEnable_sends; try reflexivity).
Qed.

Lemma known_pin_maps_carry (pm : I2CPinMap.t) (rs backlight : bool) (data : Z) :
  pm = MJKDZPinMap \/ pm = PCF8574PinMap ->
  is_byte data ->
  carries pm rs backlight data 4 (expander_byte pm rs backlight data 4) = true /\
  carries pm rs backlight data 0 (expander_byte pm rs backlight data 0) = true.
Proof.
  intros Hpm Hd.
  pose (f := fun d =>
    carries pm rs backlight d 4 (expander_byte pm rs backlight d 4) &&
    carries pm rs backlight d 0 (expander_byte pm rs backlight d 0)).
  assert (Hf : f data = true).
  { apply forall_byte; [|exact Hd].
    subst f; destruct Hpm as [-> | ->]; destruct rs, backlight;
      vm_compute; reflexivity. }
  unfold f in Hf. apply andb_true_iff in Hf. exact Hf.
Qed.

(** C6.  For every byte [data], register-select flag, pin map and stored
    backlight state, [I2CBus.Write] attempts, in order and up to the first
    failing write, the six single-byte writes to address 0x00 of
    [expander_writes]: the high byte, the high byte with the EN bit, the
    high byte, then the same for the low byte, where each byte is the OR of
    the data bits of its nibble shifted to their mapped positions, of the RS
    bit when register select is set and of the backlight bit when the
    backlight is on; the error of the failing write is returned.  On the
    two wiring tables of the package each byte carries exactly these
    bits. *)
Theorem I2CBus_Write_expander_sequence :
  forall (rs : bool) (data : Z) (bus : I2CBus.t) (w : embd.I2C),
    is_byte data ->
    let pm := I2CBus.PinMap bus in
    let bl := I2CBus.Backlight bus in
    let ws := expander_writes pm rs bl data in
    let r := fst (I2CBus.Write rs data bus w) in
    let w' := snd (I2CBus.Write rs data bus w) in
    I2CBus.Write rs data bus w = i2c_sends w ws /\
    embd.i2c_fault w' = embd.i2c_fault w /\
    (exists k : nat,
        (k <= 6)%nat /\
        embd.i2c_log w' = embd.i2c_log w ++ firstn k ws /\
        (forall j, (0 < j < k)%nat ->
                   embd.i2c_fault w (embd.i2c_log w ++ firstn j ws) = None) /\
        match r with
        | Nil => k = 6%nat /\ embd.i2c_fault w (embd.i2c_log w ++ ws) = None
        | Fail e => (0 < k)%nat /\
                    embd.i2c_fault w (embd.i2c_log w ++ firstn k ws) = Some e
        | Panic => False
        end) /\
    (pm = MJKDZPinMap \/ pm = PCF8574PinMap ->
     carries pm rs bl data 4 (expander_byte pm rs bl data 4) = true /\
     carries pm rs bl data 0 (expander_byte pm rs bl data 0) = true).
Proof.
  intros rs data bus w Hd pm bl ws r w'.
  assert (Hs : I2CBus.Write rs data bus w = i2c_sends w ws)
    by (apply I2CBus_Write_sends; exact Hd).
  split; [exact Hs|].
  subst r w'. rewrite Hs. unfold i2c_sends.
  destruct (attempts_prefix (embd.i2c_fault w) ws (embd.i2c_log w))
    as (k & Hk & Hlog & Hbefore & Hout).
  destruct (attempts (embd.i2c_fault w) (embd.i2c_log w) ws) as [r log'] eqn:E.
  simpl in *.
  split; [reflexivity|]. split.
  - exists k. split; [exact Hk|]. split; [exact Hlog|]. split; [exact Hbefore|].
    destruct r; auto.
    destruct Hout as [-> Hout]. split; [reflexivity|]. apply Hout. discriminate.
  - intros Hpm. apply known_pin_maps_carry; assumption.
Qed.

(** Writing 0xAB as data through the PCF8574 wiring with the backlight on. *)
Lemma I2CBus_Write_expander_sequence_witness :
  is_byte 0xAB /\
  I2CBus.Write true 0xAB {| I2CBus.PinMap := PCF8574PinMap; I2CBus.Backlight := true |}
    sound_i2c
  = (Nil, {| embd.i2c_log :=
               [ embd.WriteByte 0 0xA9; embd.WriteByte 0 0xAD; embd.WriteByte 0 0xA9;
                 embd.WriteByte 0 0xB9; embd.WriteByte 0 0xBD; embd.WriteByte 0 0xB9 ];
             embd.i2c_fault := embd.i2c_fault sound_i2c |}).
Proof.
  assert (Hb : is_byte 0xAB) by (unfold is_byte; lia).
  split; [exact Hb|].
  destruct (I2CBus_Write_expander_sequence true 0xAB
              {| I2CBus.PinMap := PCF8574PinMap; I2CBus.Backlight := true |}
              sound_i2c Hb) as (Hs & _).
  rewrite Hs. reflexivity.
Defined.

(** ** The character display of package hd44780 on a traced bus *)

Section TracedDisplay.
Context {L : Type}.
#[local] Abbreviation display := (CharacterDisplay.t TraceBus.t L).

Lemma on_controller_Write (rs : bool) (v : Z) (disp : display) :
  CharacterDisplay.on_controller (HD44780.Write rs v) disp
  = disp_sends disp [TraceBus.Write rs v].
Proof.
  unfold CharacterDisplay.on_controller, disp_sends.
  rewrite Write_sends. reflexivity.
Qed.

Lemma disp_sends_fields (disp : display) (todo : list TraceBus.call) :
  let d' := snd (disp_sends disp todo) in
  CharacterDisplay.p d' = CharacterDisplay.p disp /\
  CharacterDisplay.Cols d' = CharacterDisplay.Cols disp /\
  CharacterDisplay.Rows d' = CharacterDisplay.Rows disp /\
  CharacterDisplay.Backlight d' = CharacterDisplay.Backlight disp /\
  same_modes (CharacterDisplay.controller d') (CharacterDisplay.controller disp) /\
  CharacterDisplay.isLeftToRight d' = CharacterDisplay.isLeftToRight disp.
Proof.
  unfold disp_sends.
  pose proof (sends_modes (CharacterDisplay.controller disp) todo) as Hm.
  destruct (sends (CharacterDisplay.controller disp) todo) as [r x']; simpl in *.
  repeat split; try apply Hm.
  unfold CharacterDisplay.isLeftToRight; simpl.
  destruct Hm as (-> & _). reflexivity.
Qed.

Lemma disp_sends_calls (disp : display) (todo : list TraceBus.call) :
  exists k : nat,
    (k <= List.length todo)%nat /\
    bus_calls (snd (disp_sends disp todo)) = bus_calls disp ++ firstn k todo /\
    (fst (disp_sends disp todo) = Nil -> k = List.length todo) /\
    fst (disp_sends disp todo) <> Panic.
Proof.
  unfold disp_sends, sends, bus_calls.
  set (b := HD44780.bus (CharacterDisplay.controller disp)).
  destruct (attempts_prefix (TraceBus.fault b) todo (TraceBus.calls b))
    as (k & Hk & Hlog & _ & Hout).
  destruct (attempts (TraceBus.fault b) (TraceBus.calls b) todo) as [r log'].
  simpl in *. exists k. repeat split; auto.
  - intros ->. tauto.
  - intros ->. exact Hout.
Qed.

Lemma lcdRowOffset_row_offset (row : Z) (disp : display) :
  0 <= row ->
  CharacterDisplay.lcdRowOffset row disp
  = Some (row_offset (CharacterDisplay.Cols disp) row).
Proof.
  intros Hrow. unfold CharacterDisplay.lcdRowOffset, row_offset, index.
  destruct (Z.gtb_spec row 3) as [Hgt | Hle].
  - rewrite Z.min_r by lia.
    destruct (CharacterDisplay.Cols disp =? 16); reflexivity.
  - rewrite Z.min_l by lia.
    destruct (Z.ltb_spec row 0) as [|_]; [lia|].
    assert (Hr : row = 0 \/ row = 1 \/ row = 2 \/ row = 3) by lia.
    destruct (CharacterDisplay.Cols disp =? 16);
      destruct Hr as [-> | [-> | [-> | ->]]]; reflexivity.
Qed.

Lemma lcdRowOffset_negative (row : Z) (disp : display) :
  row < 0 -> CharacterDisplay.lcdRowOffset row disp = None.
Proof.
  intros Hrow. unfold CharacterDisplay.lcdRowOffset, index.
  destruct (Z.gtb_spec row 3) as [Hgt | Hle]; [lia|].
  destruct (Z.ltb_spec row 0) as [_|]; [|lia].
  destruct (CharacterDisplay.Cols disp =? 16); reflexivity.
Qed.

(** [SetCursor] for a row that is not negative, on a display with at least
    one row: the row is clamped to the last row, the position is stored and
    the set-DDRAM-address instruction is sent. *)
Lemma SetCursor_clamps (col row : Z) (disp : display) :
  0 <= row ->
  1 <= CharacterDisplay.Rows disp <= int_max ->
  let row' := Z.min row (CharacterDisplay.Rows disp - 1) in
  CharacterDisplay.SetCursor col row disp
  = disp_sends (CharacterDisplay.currentPosition col row' disp)
      [set_ddram (CharacterDisplay.Cols disp) col row'].
Proof.
  intros Hrow Hrows row'.
  unfold CharacterDisplay.SetCursor.
  assert (Hclamp : (if row >=? CharacterDisplay.Rows disp
                    then int_wrap (CharacterDisplay.Rows disp - 1) else row) = row').
  { subst row'. destruct (Z.geb_spec row (CharacterDisplay.Rows disp)).
    - rewrite int_wrap_id by (unfold is_int, int_min, int_max in *; lia). lia.
    - lia. }
  rewrite Hclamp.
  rewrite lcdRowOffset_row_offset by (subst row'; lia).
  unfold HD44780.SetCursor, HD44780.WriteInstruction.
  rewrite on_controller_Write. reflexivity.
Qed.

Lemma SetCursor_negative_row (col row : Z) (disp : display) :
  row < 0 -> row < CharacterDisplay.Rows disp ->
  CharacterDisplay.SetCursor col row disp
  = (Panic, CharacterDisplay.currentPosition col row disp).
Proof.
  intros Hneg Hrows. unfold CharacterDisplay.SetCursor.
  destruct (Z.geb_spec row (CharacterDisplay.Rows disp)); [lia|].
  rewrite lcdRowOffset_negative by exact Hneg. reflexivity.
Qed.

End TracedDisplay.

(** C7.  [SetCursor(0, -1)] on a 16x2 display: the negative row is not
    clamped; the position (0, -1) is stored and the index into the
    row-offset table panics before any instruction is sent. *)
Theorem SetCursor_negative_row_panics :
  let disp := display_on (controller_with_eMode 0x02) 16 2 0 0 in
  let r := CharacterDisplay.SetCursor 0 (-1) disp in
  fst r = Panic /\
  CharacterDisplay.p (snd r)
    = {| CharacterDisplay.col := 0; CharacterDisplay.row := -1 |} /\
  bus_calls (snd r) = bus_calls disp.
Proof. cbv zeta. repeat split. Qed.
